(** * Solr neural search scripts: indexing, vector generation, query payloads

    A shallow embedding of the scripts under [src/scripts]:
    - [document_indexing.py]   ([index_documents], [test_connection], [main]),
    - [vector_generation.py]   ([batch_encode_to_vectors], [encode], [main]),
    - [sample_data_generator.py] ([create_sample_documents], [save_documents]),
    - [neural_search_tester.py] ([make_request], the [test_*] queries, the
      health check and [run_all_tests]).

    Text is modelled as [string] over 8-bit characters (ASCII text; the
    Unicode white space and Unicode digits that Python also recognises are
    outside the model).  Files are the list of their lines.  Everything the
    scripts print is kept as an ordered list of events. *)

From Stdlib Require Import String Ascii List ZArith NArith Arith Bool Lia.
From Stdlib Require Import DecimalString Decimal DecimalNat.
From Equations Require Import Equations.
Import ListNotations.
Open Scope string_scope.

(** ** Python built-ins used by the scripts *)

Module Py.

(** Exceptions that appear in the modelled code paths. *)
Inductive exn : Type :=
| ValueError (about : string)
| KeyError (key : string)
| TypeError
| IndexError
| OverflowError
| RequestException (msg : string)
| OtherError (msg : string).

Definition is_ValueError (e : exn) : bool :=
  match e with ValueError _ => true | _ => false end.

Definition is_RequestException (e : exn) : bool :=
  match e with RequestException _ => true | _ => false end.

(** [c.isspace()] on the ASCII range: TAB, LF, VT, FF, CR, FS, GS, RS, US
    and the space. *)
Definition isspace (c : ascii) : bool :=
  let n := nat_of_ascii c in
  ((9 <=? n)%nat && (n <=? 13)%nat) || ((28 <=? n)%nat && (n <=? 32)%nat).

(** [Py_ISSPACE], the white space that the number parsers of CPython skip:
    TAB, LF, VT, FF, CR and the space (not FS, GS, RS, US). *)
Definition Py_ISSPACE (c : ascii) : bool :=
  let n := nat_of_ascii c in
  ((9 <=? n)%nat && (n <=? 13)%nat) || (n =? 32)%nat.

Definition isdigit (c : ascii) : bool :=
  let n := nat_of_ascii c in (48 <=? n)%nat && (n <=? 57)%nat.

Definition digit_value (c : ascii) : N := N.of_nat (nat_of_ascii c - 48).

Definition is_empty (s : string) : bool :=
  match s with EmptyString => true | String _ _ => false end.

Section Strip.
(** The characters to remove. *)
Variable blank : ascii -> bool.

Fixpoint lstrip_with (s : string) : string :=
  match s with
  | EmptyString => EmptyString
  | String c r => if blank c then lstrip_with r else s
  end.

Fixpoint rstrip_with (s : string) : string :=
  match s with
  | EmptyString => EmptyString
  | String c r =>
      let r' := rstrip_with r in
      if blank c && is_empty r' then EmptyString else String c r'
  end.

Definition strip_with (s : string) : string := rstrip_with (lstrip_with s).
End Strip.

(** [s.strip()] *)
Definition strip (s : string) : string := strip_with isspace s.

(** [s.split(sep)] for a one-character separator: never an empty list. *)
Fixpoint split (sep : ascii) (s : string) : list string :=
  match s with
  | EmptyString => [EmptyString]
  | String c r =>
      if Ascii.eqb c sep then EmptyString :: split sep r
      else match split sep r with
           | [] => [String c EmptyString]
           | t :: ts => String c t :: ts
           end
  end.

(** [sep.join(items)]: the separator goes in front of every item but the
    first. *)
Definition join (sep : string) (items : list string) : string :=
  match items with
  | [] => EmptyString
  | x :: xs => fold_left (fun acc y => acc ++ sep ++ y) xs x
  end.

(** [str(n)] for a non-negative [int]. *)
Definition str_nat (n : nat) : string :=
  NilEmpty.string_of_uint (Nat.to_uint n).

(** [str(z)] for an [int]. *)
Definition str_int (z : Z) : string :=
  match z with
  | Z0 => "0"
  | Zpos p => str_nat (Pos.to_nat p)
  | Zneg p => "-" ++ str_nat (Pos.to_nat p)
  end.

(** The line feed, as a one-character text. *)
Definition newline : string := String (ascii_of_nat 10) EmptyString.

Definition lower_char (c : ascii) : ascii :=
  let n := nat_of_ascii c in
  if (65 <=? n)%nat && (n <=? 90)%nat then ascii_of_nat (n + 32) else c.

Fixpoint lower (s : string) : string :=
  match s with
  | EmptyString => EmptyString
  | String c r => String (lower_char c) (lower r)
  end.

(** *** [float(str)]

    The value [float] returns is kept as the literal it was read from:
    a NaN, a signed infinity, or [(-1)^neg * mant * 10^exp10].  CPython then
    rounds the literal to the nearest binary64; that rounding is not
    modelled, since [float] never raises because of it (overflow gives an
    infinity, underflow a zero). *)
Inductive pyfloat : Type :=
| FNan
| FInf (neg : bool)
| FDec (neg : bool) (mant : N) (exp10 : Z).

(** The pass that removes the underscores of a numeric literal
    ([_Py_string_to_number_with_underscores]): an underscore is allowed
    only between two digits. [None] is the error exit. *)
Fixpoint drop_underscores (prev : ascii) (s : string) : option string :=
  match s with
  | EmptyString => if Ascii.eqb prev "_" then None else Some EmptyString
  | String c r =>
      if Ascii.eqb c "_" then
        if isdigit prev then drop_underscores c r else None
      else if Ascii.eqb prev "_" && negb (isdigit c) then None
      else option_map (String c) (drop_underscores c r)
  end.

Definition parse_sign (s : string) : bool * string :=
  match s with
  | String "-" r => (true, r)
  | String "+" r => (false, r)
  | _ => (false, s)
  end.

(** The longest prefix of decimal digits, and what follows it. *)
Fixpoint span_digits (s : string) : list ascii * string :=
  match s with
  | String c r =>
      if isdigit c then let (ds, rest) := span_digits r in (c :: ds, rest)
      else ([], s)
  | EmptyString => ([], s)
  end.

Definition digits_value (ds : list ascii) : N :=
  fold_left (fun acc c => (10 * acc + digit_value c)%N) ds 0%N.

Definition is_exponent_mark (c : ascii) : bool :=
  Ascii.eqb c "e" || Ascii.eqb c "E".

(** A decimal number that covers the whole of [s]:
    [sign] digits [. digits] [(e|E) [sign] digits], with at least one digit
    in the mantissa and at least one in an exponent that is present. *)
Definition parse_number (s : string) : option pyfloat :=
  let (neg, r) := parse_sign s in
  let (ip, r1) := span_digits r in
  let (fp, r2) :=
    match r1 with
    | String "." t => span_digits t
    | _ => ([], r1)
    end in
  match (ip ++ fp)%list with
  | [] => None
  | _ :: _ =>
      let mant := digits_value (ip ++ fp)%list in
      let scale := Z.of_nat (length fp) in
      match r2 with
      | EmptyString => Some (FDec neg mant (- scale)%Z)
      | String c t =>
          if is_exponent_mark c then
            let (eneg, t1) := parse_sign t in
            match span_digits t1 with
            | ((_ :: _) as ed, EmptyString) =>
                let e := Z.of_N (digits_value ed) in
                Some (FDec neg mant ((if eneg then - e else e) - scale)%Z)
            | _ => None
            end
          else None
      end
  end.

(** [inf], [infinity] and [nan], in any letter case, with an optional
    sign ([_Py_parse_inf_or_nan]). *)
Definition parse_inf_or_nan (s : string) : option pyfloat :=
  let (neg, r) := parse_sign s in
  let low := lower r in
  if String.eqb low "inf" || String.eqb low "infinity" then Some (FInf neg)
  else if String.eqb low "nan" then Some FNan
  else None.

Definition has_underscore (s : string) : bool :=
  existsb (Ascii.eqb "_") (list_ascii_of_string s).

(** [float(s)]: underscores are checked and removed, white space
    ([Py_ISSPACE]) is skipped at both ends, and what is left must be a
    decimal number or an infinity or NaN.  The [ValueError] names the
    offending text. *)
Definition float (s : string) : exn + pyfloat :=
  let cleaned := if has_underscore s then drop_underscores Ascii.zero s else Some s in
  match cleaned with
  | None => inl (ValueError s)
  | Some t =>
      let body := strip_with Py_ISSPACE t in
      match parse_number body with
      | Some x => inr x
      | None =>
          match parse_inf_or_nan body with
          | Some x => inr x
          | None => inl (ValueError s)
          end
      end
  end.

End Py.

(** ** [document_indexing.py] *)

Module DocumentIndexing.
Import Py.

Definition BATCH_SIZE : nat := 100.

(** The JSON document built for one line pair:
    [{"id": str(index), "text": document.strip(), "vector": vector}]. *)
Record IndexEntry : Type := mkEntry {
  id : string;
  text : string;
  vector : list pyfloat
}.

(** What [index_documents] prints inside and after its loop. *)
Inductive event : Type :=
| Indexed (index : nat)                  (* ==== Indexed {index} documents ====== *)
| ErrorProcessing (index : nat) (e : exn) (* Error processing document {index}: {e} *)
| IndexedRemaining (n : nat)             (* ==== Indexed remaining {n} documents ====== *)
| IndexingFinished.                      (* Indexing finished! *)

(** The Solr client, as far as [index_documents] uses it: [solr.add(docs)]
    changes the backend and may raise. *)
Class IndexClient (B : Type) : Type := {
  add : B -> list IndexEntry -> B * option exn
}.

(** How a run ends: it returns, or an exception leaves the function. *)
Inductive outcome (B : Type) : Type :=
| Returned (solr : B)
| Raised (e : exn) (solr : B).
Arguments Returned {B} solr.
Arguments Raised {B} e solr.

(** [[float(w) for w in vector_string.strip().split(",")]]: the first
    token that [float] refuses raises the [ValueError]. *)
Fixpoint floats (tokens : list string) : exn + list pyfloat :=
  match tokens with
  | [] => inr []
  | w :: ws =>
      match float w with
      | inl e => inl e
      | inr x =>
          match floats ws with
          | inl e => inl e
          | inr xs => inr (x :: xs)
          end
      end
  end.

Definition parse_vector (vector_string : string) : exn + list pyfloat :=
  floats (split "," (strip vector_string)).

(** [index % BATCH_SIZE == 0 and index != 0] *)
Definition flush_due (index : nat) : bool :=
  (index mod BATCH_SIZE =? 0)%nat && negb (index =? 0)%nat.

Definition say {B} (ev : event) (r : outcome B * list event)
  : outcome B * list event :=
  (fst r, ev :: snd r).

Section Run.
Context {B : Type} `{IndexClient B}.

(** The code after the loop: the rest of the buffer, when there is one,
    goes to [solr.add]. *)
Definition flush_remaining (solr : B) (documents : list IndexEntry)
  : outcome B * list event :=
  match documents with
  | [] => (Returned solr, [IndexingFinished])
  | _ :: _ =>
      match add solr documents with
      | (solr', None) =>
          (Returned solr',
           [IndexedRemaining (length documents); IndexingFinished])
      | (solr', Some e) => (Raised e solr', [])
      end
  end.

(** The [for] loop over [enumerate(zip(documents_file, vectors_file))],
    with the buffer [documents] and the loop counter [index] as
    arguments.  The [try] covers the parse, the append and the flush, so
    a [ValueError] from [solr.add] is caught like one from [float]; any
    other exception leaves the function. *)
Fixpoint index_loop (solr : B) (documents : list IndexEntry) (index : nat)
         (pairs : list (string * string)) : outcome B * list event :=
  match pairs with
  | [] => flush_remaining solr documents
  | (document, vector_string) :: rest =>
      match parse_vector vector_string with
      | inl e =>
          say (ErrorProcessing index e)
              (index_loop solr documents (S index) rest)
      | inr vector =>
          let doc := {| id := str_nat index;
                        text := strip document;
                        vector := vector |} in
          let documents := (documents ++ [doc])%list in
          if flush_due index then
            match add solr documents with
            | (solr', None) =>
                say (Indexed index) (index_loop solr' [] (S index) rest)
            | (solr', Some e) =>
                if is_ValueError e then
                  say (ErrorProcessing index e)
                      (index_loop solr' documents (S index) rest)
                else (Raised e solr', [])
            end
          else index_loop solr documents (S index) rest
      end
  end.

(** [index_documents(solr, documents_filename, embedding_filename)], on
    the lines of the two files. *)
Definition index_documents (solr : B)
           (documents_file vectors_file : list string)
  : outcome B * list event :=
  index_loop solr [] 0 (combine documents_file vectors_file).

End Run.

(** A backend that accepts every batch and keeps the calls it received,
    oldest first. *)
#[export] Instance recorder : IndexClient (list (list IndexEntry)) := {
  add calls batch := ((calls ++ [batch])%list, None)
}.

(** The entries a sequence of line pairs gives rise to, numbered from
    [index]: a pair whose vector line does not parse gives none, and keeps
    its number. *)
Fixpoint entries_from (index : nat) (pairs : list (string * string))
  : list IndexEntry :=
  match pairs with
  | [] => []
  | (document, vector_string) :: rest =>
      match parse_vector vector_string with
      | inl _ => entries_from (S index) rest
      | inr vector =>
          {| id := str_nat index; text := strip document; vector := vector |}
            :: entries_from (S index) rest
      end
  end.

(** A vector line that decodes. *)
Definition parses (vector_string : string) : Prop :=
  exists vector, parse_vector vector_string = inr vector.

Definition is_error (ev : event) : bool :=
  match ev with ErrorProcessing _ _ => true | _ => false end.

Definition skipped (evs : list event) : nat :=
  length (filter is_error evs).

End DocumentIndexing.

(** ** [vector_generation.py] *)

Module VectorGeneration.
Import Py.

Definition BATCH_SIZE : nat := 100.
Definition INFO_UPDATE_FACTOR : nat := 1.

Inductive event : Type :=
| ProcessedBatch (processed : nat)   (* Processed {processed} batch of documents *)
| VectorDimension (dim : nat).       (* Vector dimension: {len(embeddings[0])} *)

(** How a run ends, the text written to the output file and what was
    printed. *)
Record run : Type := mkRun {
  raised : option exn;
  written : string;
  printed : list event
}.

Section Model.
(** The sentence-transformer and the number type of its embeddings are
    external: [model_encode] is [model.encode(documents, ...)] and
    [str_np] is [str] on one component. *)
Variable npfloat : Type.
Variable str_np : npfloat -> string.
Variable model_encode : list string -> list (list npfloat).

(** [encode(model, documents)]: [embeddings[0]] raises on an empty
    result. *)
Definition encode (documents : list string)
  : exn + (list (list npfloat) * event) :=
  let embeddings := model_encode documents in
  match embeddings with
  | [] => inl IndexError
  | first :: _ => inr (embeddings, VectorDimension (length first))
  end.

(** One line of the vectors file: [','.join([str(i) for i in v])]. *)
Definition vector_line (v : list npfloat) : string :=
  join "," (map str_np v).

(** The inner [for v in vectors] loop, on the file written so far. *)
Definition write_vectors (out : string) (vectors : list (list npfloat))
  : string :=
  fold_left (fun out v => (out ++ vector_line v) ++ newline) vectors out.

Definition progress (processed : nat) : list event :=
  if (processed mod INFO_UPDATE_FACTOR =? 0)%nat
  then [ProcessedBatch processed] else [].

(** The loop over [iter(lambda: tuple(islice(documents_file, BATCH_SIZE)), ())]:
    [documents_file] holds the lines not read yet. *)
Equations? batch_loop (documents_file : list string) (processed : nat)
           (out : string) : run
  by wf (length documents_file) lt :=
  batch_loop [] processed out := mkRun None out [];
  batch_loop (d :: ds) processed out
    with encode (firstn BATCH_SIZE (d :: ds)) := {
    | inl e => mkRun (Some e) out (progress (S processed));
    | inr (vectors, dim) =>
        let r := batch_loop (skipn BATCH_SIZE (d :: ds)) (S processed)
                            (write_vectors out vectors) in
        mkRun (raised r) (written r)
              (progress (S processed) ++ dim :: printed r)%list }.
Proof.
  change (length (skipn 99 ds) < S (length ds)).
  rewrite length_skipn. lia.
Qed.

(** [batch_encode_to_vectors(model, input_filename, output_filename)] on
    the lines of the input file; the output file starts empty. *)
Definition batch_encode_to_vectors (documents_file : list string) : run :=
  batch_loop documents_file 0 EmptyString.

End Model.

(** The line of the vectors file that belongs to a document, for an
    embedder that maps each text to its vector. *)
Definition line_of (npfloat : Type) (str_np : npfloat -> string)
           (embed : string -> list npfloat) (document : string) : string :=
  vector_line npfloat str_np (embed document).

(** Reading a text file line by line, as [for line in file] does on a file
    opened in text mode (universal newlines): a line feed, a carriage return,
    and a carriage return followed by a line feed, each end a line and are
    given as one line feed; the last line may lack it.  [after_cr] tells that
    the character before was a carriage return. *)
Fixpoint read_lines (after_cr : bool) (content : string) : list string :=
  match content with
  | EmptyString => []
  | String c r =>
      if Ascii.eqb c (ascii_of_nat 10) then
        if after_cr then read_lines false r else newline :: read_lines false r
      else if Ascii.eqb c (ascii_of_nat 13) then newline :: read_lines true r
      else match read_lines false r with
           | [] => [String c EmptyString]
           | l :: ls => String c l :: ls
           end
  end.

Definition readlines (content : string) : list string :=
  read_lines false content.

(** The number of line ends in a text, counted the same way. *)
Fixpoint line_ends (after_cr : bool) (s : string) : nat :=
  match s with
  | EmptyString => 0
  | String c r =>
      if Ascii.eqb c (ascii_of_nat 10) then
        (if after_cr then 0 else 1) + line_ends false r
      else if Ascii.eqb c (ascii_of_nat 13) then 1 + line_ends true r
      else line_ends false r
  end.

(** A text without line feed and without carriage return. *)
Fixpoint one_line (s : string) : bool :=
  match s with
  | EmptyString => true
  | String c r =>
      negb (Ascii.eqb c (ascii_of_nat 10))
      && negb (Ascii.eqb c (ascii_of_nat 13))
      && one_line r
  end.

(** The texts of the components separated by single commas, in order. *)
Fixpoint comma_separated (texts : list string) : string :=
  match texts with
  | [] => EmptyString
  | t :: rest =>
      match rest with
      | [] => t
      | _ :: _ => t ++ "," ++ comma_separated rest
      end
  end.

(** The text of a file made of the given lines, each followed by a line
    feed. *)
Fixpoint unlines (lines : list string) : string :=
  match lines with
  | [] => EmptyString
  | l :: ls => l ++ newline ++ unlines ls
  end.

End VectorGeneration.

(** ** [neural_search_tester.py] *)

Module NeuralSearchTester.
Import Py.

Section Tester.
(** Python floats reach this script from outside (the query embedding,
    the numbers of a decoded response), so their type is a parameter,
    with the two operations the script applies to them: truth value and
    [repr]. *)
Variable pyfl : Type.
Variable float_truthy : pyfl -> bool.
Variable repr_float : pyfl -> string.

(** Values of [response.json()] and of the request payloads.  A [JObj]
    lists the items of a [dict], whose keys are distinct. *)
#[warnings="-register-all"]
Inductive json : Type :=
| JNull
| JBool (b : bool)
| JInt (z : Z)
| JFloat (x : pyfl)
| JStr (s : string)
| JArr (items : list json)
| JObj (fields : list (string * json)).

Fixpoint dict_get (fields : list (string * json)) (key : string)
  : option json :=
  match fields with
  | [] => None
  | (k, v) :: rest => if String.eqb k key then Some v else dict_get rest key
  end.

Definition dict_keys (fields : list (string * json)) : list string :=
  map fst fields.

(** [bool(value)] *)
Definition truthy (value : json) : bool :=
  match value with
  | JNull => false
  | JBool b => b
  | JInt z => negb (z =? 0)%Z
  | JFloat x => float_truthy x
  | JStr s => negb (is_empty s)
  | JArr items => match items with [] => false | _ => true end
  | JObj fields => match fields with [] => false | _ => true end
  end.

(** [value[key]] for a [str] key: only a [dict] can answer. *)
Definition getitem (value : json) (key : string) : exn + json :=
  match value with
  | JObj fields =>
      match dict_get fields key with
      | Some v => inr v
      | None => inl (KeyError key)
      end
  | _ => inl TypeError
  end.

Fixpoint chars (s : string) : list json :=
  match s with
  | EmptyString => []
  | String c r => JStr (String c EmptyString) :: chars r
  end.

(** [iter(value)] run to the end: a list gives its items, a [str] its
    characters, a [dict] its keys. *)
Definition iterate (value : json) : exn + list json :=
  match value with
  | JArr items => inr items
  | JStr s => inr (chars s)
  | JObj fields => inr (map (fun kv => JStr (fst kv)) fields)
  | _ => inl TypeError
  end.

(** [format(value, ".4f")]: numbers only, and an [int] must fit a float
    (it overflows from [2^1024 - 2^970] on); [None] is success. *)
Definition format_4f (value : json) : option exn :=
  match value with
  | JBool _ | JFloat _ => None
  | JInt z =>
      if (Z.abs z <? 2 ^ 1024 - 2 ^ 970)%Z then None else Some OverflowError
  | JStr _ => Some (ValueError "Unknown format code 'f' for object of type 'str'")
  | _ => Some TypeError
  end.

Fixpoint prefix (n : nat) (s : string) : string :=
  match n, s with
  | S m, String c r => String c (prefix m r)
  | _, _ => EmptyString
  end.

(** [value[:100]]: a [str] or a list; a [dict] refuses the slice as a
    key. *)
Definition slice_100 (value : json) : exn + json :=
  match value with
  | JStr s => inr (JStr (prefix 100 s))
  | JArr items => inr (JArr (firstn 100 items))
  | _ => inl TypeError
  end.

(** *** Printing and raising *)

Inductive event : Type :=
| Say (line : string)
| SayFilterIds (filter_ids : list string) (* Filter IDs: {filter_ids} *)
| SayFound (numFound : json)         (* Found {numFound} documents *)
| SayHit (i : nat) (id score : json) (* {i}. ID: {id} (Score: {score:.4f}) *)
| SayText (head : json).             (*    Text: {text[:100]}... *)

Definition M (A : Type) : Type := (exn + A) * list event.

Definition ret {A} (a : A) : M A := (inr a, []).
Definition raise {A} (e : exn) : M A := (inl e, []).
Definition tell (ev : event) : M unit := (inr tt, [ev]).
Definition lift {A} (x : exn + A) : M A := (x, []).

Definition bind {A C} (m : M A) (k : A -> M C) : M C :=
  match fst m with
  | inl e => (inl e, snd m)
  | inr a => let r := k a in (fst r, (snd m ++ snd r)%list)
  end.

Notation "x <- m ;; k" := (bind m (fun x => k))
  (at level 61, m at next level, right associativity).
Notation "m ;;; k" := (bind m (fun _ => k))
  (at level 61, right associativity).

(** *** The HTTP side *)

Inductive verb : Type := GET | POST.

Record request : Type := mkRequest {
  method : verb;
  url : string;
  body : option json
}.

(** [self.solr_url], the embedding of a query
    ([self.model.encode([query])[0].tolist()]) and the network:
    [http req] is the decoded JSON of the response, or the exception that
    [requests.post]/[requests.get], [raise_for_status] or
    [response.json()] raised. *)
Variable solr_url : string.
Variable vectorize_query : string -> list pyfl.
Variable http : request -> exn + json.

Definition exn_text (e : exn) : string :=
  match e with
  | ValueError m | KeyError m | RequestException m | OtherError m => m
  | TypeError => "TypeError"
  | IndexError => "IndexError"
  | OverflowError => "OverflowError"
  end.

(** [make_request(endpoint, data, method)]: [None] ([JNull]) after a
    [RequestException], which is printed; other exceptions pass. *)
Definition make_request (endpoint : string) (data : option json)
           (meth : string) : M json :=
  let url := solr_url ++ endpoint in
  let req := if String.eqb meth "POST"
             then mkRequest POST url data
             else mkRequest GET url None in
  match http req with
  | inr decoded => ret decoded
  | inl e =>
      if is_RequestException e then
        tell (Say ("Error making request to " ++ url ++ ": " ++ exn_text e)) ;;;
        ret JNull
      else raise e
  end.

(** The body of [for i, doc in enumerate(docs, 1)]. *)
Fixpoint show_docs (i : nat) (docs : list json) : M unit :=
  match docs with
  | [] => ret tt
  | doc :: rest =>
      id <- lift (getitem doc "id") ;;
      score <- lift (getitem doc "score") ;;
      match format_4f score with
      | Some e => raise e
      | None =>
          tell (SayHit i id score) ;;;
          text <- lift (getitem doc "text") ;;
          head <- lift (slice_100 text) ;;
          tell (SayText head) ;;;
          show_docs (S i) rest
      end
  end.

(** The block under [if result:], the same in each query test. *)
Definition show_result (result : json) : M unit :=
  response <- lift (getitem result "response") ;;
  numFound <- lift (getitem response "numFound") ;;
  tell (SayFound numFound) ;;;
  response <- lift (getitem result "response") ;;
  docs <- lift (getitem response "docs") ;;
  docs <- lift (iterate docs) ;;
  show_docs 1 docs.

(** Execute the query and print what came back; returns [result]. *)
Definition execute (query_data : json) : M json :=
  result <- make_request "/select?fl=id,text,score" (Some query_data) "POST" ;;
  (if truthy result then show_result result else ret tt) ;;;
  ret result.

(** [str(vector)] for a list of floats. *)
Definition str_list (vector : list pyfl) : string :=
  "[" ++ join ", " (map repr_float vector) ++ "]".

(** [f"{{!knn f=vector topK={top_k}}}{vector}"] *)
Definition knn_clause (top_k : Z) (vector : list pyfl) : string :=
  "{!knn f=vector topK=" ++ str_int top_k ++ "}" ++ str_list vector.

(** [f"{{!type=edismax qf={lexical_field} v='{lexical_query}'}}"] *)
Definition edismax_clause (lexical_field lexical_query : string) : string :=
  "{!type=edismax qf=" ++ lexical_field ++ " v='" ++ lexical_query ++ "'}".

(** [query_data] of [test_basic_knn_query]. *)
Definition knn_query_data (top_k : Z) (vector : list pyfl) : json :=
  JObj [("query", JStr (knn_clause top_k vector))].

(** [filter_query] and [query_data] of [test_knn_with_prefiltering]. *)
Definition filter_query (filter_ids : list string) : string :=
  "id:(" ++ join " " filter_ids ++ ")".

Definition prefiltering_query_data (top_k : Z) (vector : list pyfl)
           (filter_ids : list string) : json :=
  JObj [("query", JStr (knn_clause top_k vector));
        ("filter", JStr (filter_query filter_ids))].

(** [query_data] of [test_hybrid_search]. *)
Definition hybrid_query_data (top_k : Z) (vector : list pyfl)
           (lexical_field lexical_query : string) : json :=
  JObj [("query",
         JObj [("bool",
                JObj [("should",
                       JArr [JStr (edismax_clause lexical_field lexical_query);
                             JStr (knn_clause top_k vector)])])])].

Definition test_basic_knn_query (query : string) (top_k : Z) : M json :=
  tell (Say (newline ++ "=== Test 1: Basic KNN Query ===")) ;;;
  tell (Say ("Query: '" ++ query ++ "'")) ;;;
  tell (Say ("TopK: " ++ str_int top_k)) ;;;
  let vector := vectorize_query query in
  execute (knn_query_data top_k vector).

Definition test_knn_with_prefiltering (query : string)
           (filter_ids : list string) (top_k : Z) : M json :=
  tell (Say (newline ++ "=== Test 2: KNN with Pre-filtering ===")) ;;;
  tell (Say ("Query: '" ++ query ++ "'")) ;;;
  tell (SayFilterIds filter_ids) ;;;
  tell (Say ("TopK: " ++ str_int top_k)) ;;;
  let vector := vectorize_query query in
  execute (prefiltering_query_data top_k vector filter_ids).

Definition test_hybrid_search (query lexical_field lexical_query : string)
           (top_k : Z) : M json :=
  tell (Say (newline ++ "=== Test 3: Hybrid Search ===")) ;;;
  tell (Say ("Neural query: '" ++ query ++ "'")) ;;;
  tell (Say ("Lexical query: '" ++ lexical_query ++ "' in field '" ++ lexical_field ++ "'")) ;;;
  tell (Say ("TopK: " ++ str_int top_k)) ;;;
  let vector := vectorize_query query in
  execute (hybrid_query_data top_k vector lexical_field lexical_query).

End Tester.

Arguments JNull {pyfl}.
Arguments JBool {pyfl} b.
Arguments JInt {pyfl} z.
Arguments JFloat {pyfl} x.
Arguments JStr {pyfl} s.
Arguments JArr {pyfl} items.
Arguments JObj {pyfl} fields.
Arguments dict_get {pyfl} fields key.
Arguments dict_keys {pyfl} fields.
Arguments getitem {pyfl} value key.
Arguments mkRequest {pyfl} method url body.
Arguments Say {pyfl} line.
Arguments SayFilterIds {pyfl} filter_ids.
Arguments SayFound {pyfl} numFound.
Arguments SayHit {pyfl} i id score.
Arguments SayText {pyfl} head.

(** The ids separated by single spaces, in the order given. *)
Fixpoint spaced (ids : list string) : string :=
  match ids with
  | [] => EmptyString
  | i :: rest =>
      match rest with
      | [] => i
      | _ :: _ => i ++ " " ++ spaced rest
      end
  end.

End NeuralSearchTester.

(** ** Measures used to state the behaviour of vector generation *)

Module Batches.
Import Py VectorGeneration.

(** The successive results of [tuple(islice(documents_file, BATCH_SIZE))],
    up to the first empty one. *)
Equations? batches (documents_file : list string) : list (list string)
  by wf (length documents_file) lt :=
  batches [] := [];
  batches (d :: ds) :=
    firstn BATCH_SIZE (d :: ds) :: batches (skipn BATCH_SIZE (d :: ds)).
Proof.
  change (length (skipn 99 ds) < S (length ds)).
  rewrite length_skipn. lia.
Qed.

Definition is_progress (ev : event) : bool :=
  match ev with ProcessedBatch _ => true | VectorDimension _ => false end.

(** A text with no white space in it. *)
Fixpoint solid (s : string) : bool :=
  match s with
  | EmptyString => true
  | String c r => negb (isspace c) && solid r
  end.

(** A text with no white space and no comma in it. *)
Fixpoint plain (s : string) : bool :=
  match s with
  | EmptyString => true
  | String c r => negb (isspace c) && negb (Ascii.eqb c ",") && plain r
  end.

End Batches.

(** ** [neural_search_tester.py]: re-ranking, health check and the suite *)

Module TesterSuite.
Import Py NeuralSearchTester.

Section Suite.
Variable pyfl : Type.
Variable float_truthy : pyfl -> bool.
Variable repr_float : pyfl -> string.
Variable solr_url : string.
Variable vectorize_query : string -> list pyfl.
Variable http : request pyfl -> exn + json pyfl.

(** [requests.get(url, params=params, timeout=30)] followed by
    [raise_for_status()] and [json()]: the decoded response or the exception
    raised. *)
Variable http_params : string -> list (string * string) -> exn + json pyfl.

(** What the health check and the suite print besides the lines of the
    query tests. *)
Inductive suite_event : Type :=
| Line (ev : event pyfl)
| SayPingOk (status : json pyfl)        (* ✓ Solr ping successful: {status} *)
| SayPingFailed                         (* ✗ Solr ping failed *)
| SayCollection (num_docs : json pyfl)  (* ✓ Collection has {num_docs} documents *)
| SayStatsFailed                        (* ✗ Failed to get collection stats *)
| SayRerankError (e : exn)              (* Error in reranking query: {e} *)
| SaySuccessRate (success_count total_tests : nat).
                                        (* Success rate: {(s/t)*100:.1f}% *)

Definition SM (A : Type) : Type := (exn + A) * list suite_event.

Definition sret {A} (a : A) : SM A := (inr a, []).
Definition sraise {A} (e : exn) : SM A := (inl e, []).
Definition stell (ev : suite_event) : SM unit := (inr tt, [ev]).
Definition say (line : string) : SM unit := stell (Line (Say line)).

(** A computation of the query tests, run inside the suite. *)
Definition run {A} (m : M pyfl A) : SM A := (fst m, map Line (snd m)).

Definition sbind {A C} (m : SM A) (k : A -> SM C) : SM C :=
  match fst m with
  | inl e => (inl e, snd m)
  | inr a => let r := k a in (fst r, (snd m ++ snd r)%list)
  end.

Notation "x <- m ;; k" := (sbind m (fun x => k))
  (at level 61, m at next level, right associativity).
Notation "m ;;; k" := (sbind m (fun _ => k))
  (at level 61, right associativity).

(** [params] of [test_reranking_query]. *)
Definition rerank_params (initial_query : string) (rerank_docs rerank_weight : Z)
           (vector : list pyfl) : list (string * string) :=
  [ ("q", initial_query);
    ("fl", "id,text,score");
    ("rq", "{!rerank reRankQuery=$rqq reRankDocs=" ++ str_int rerank_docs
           ++ " reRankWeight=" ++ str_int rerank_weight ++ "}");
    ("rqq", knn_clause pyfl repr_float rerank_docs vector) ].

(** [test_reranking_query]: the request is made under [except Exception],
    the printing of the result is not. *)
Definition test_reranking_query (initial_query rerank_query : string)
           (rerank_docs rerank_weight : Z) : SM (json pyfl) :=
  say (newline ++ "=== Test 4: Re-ranking Query ===") ;;;
  say ("Initial query: '" ++ initial_query ++ "'") ;;;
  say ("Rerank query: '" ++ rerank_query ++ "'") ;;;
  say ("Rerank docs: " ++ str_int rerank_docs ++ ", weight: "
       ++ str_int rerank_weight) ;;;
  let vector := vectorize_query rerank_query in
  let params := rerank_params initial_query rerank_docs rerank_weight vector in
  match http_params (solr_url ++ "/select") params with
  | inl e =>
      stell (SayRerankError e) ;;;
      sret JNull
  | inr result =>
      run (if truthy pyfl float_truthy result
           then show_result pyfl result else ret pyfl tt) ;;;
      sret result
  end.

(** [value.get(key)]: a [dict] answers, with [None] for a missing key; the
    other JSON values have no such method ([AttributeError]). *)
Definition get_method (value : json pyfl) (key : string) : exn + json pyfl :=
  match value with
  | JObj fields =>
      match dict_get fields key with
      | Some v => inr v
      | None => inr JNull
      end
  | _ => inl (OtherError "AttributeError")
  end.

Definition slift {A} (x : exn + A) : SM A := (x, []).

(** [test_solr_health] *)
Definition test_solr_health : SM bool :=
  say (newline ++ "=== Solr Health Check ===") ;;;
  ping_result <- run (make_request pyfl solr_url http "/admin/ping" None "GET") ;;
  if truthy pyfl float_truthy ping_result then
    status <- slift (get_method ping_result "status") ;;
    stell (SayPingOk status) ;;;
    stats_result <-
      run (make_request pyfl solr_url http "/select?q=*:*&rows=0" None "GET") ;;
    if truthy pyfl float_truthy stats_result then
      response <- slift (getitem stats_result "response") ;;
      num_docs <- slift (getitem response "numFound") ;;
      stell (SayCollection num_docs) ;;;
      sret true
    else
      stell SayStatsFailed ;;; sret false
  else
    stell SayPingFailed ;;; sret false.

(** [test_queries] of [run_all_tests] *)
Definition test_queries : list string :=
  [ "what is a bank transit number";
    "financial institution information";
    "federal tax identification" ].

(** The default arguments of the query tests. *)
Definition default_filter_ids : list string := ["0"; "1"; "2"; "3"; "4"].
Definition default_initial_query : string := "id:(0 1 2 3 4)".

(** The four tests that [run_all_tests] runs for a query, in order. *)
Definition tests_of (query : string) : list (SM (json pyfl)) :=
  [ run (test_basic_knn_query pyfl float_truthy repr_float solr_url
                              vectorize_query http query 3);
    run (test_knn_with_prefiltering pyfl float_truthy repr_float solr_url
                                    vectorize_query http query
                                    default_filter_ids 3);
    run (test_hybrid_search pyfl float_truthy repr_float solr_url
                            vectorize_query http query "text" "bank" 3);
    test_reranking_query default_initial_query query 4 1 ].

(** [total_tests += 1; if self.test_x(query): success_count += 1], on the
    pair [(success_count, total_tests)]. *)
Definition counted (test : SM (json pyfl)) (counts : nat * nat)
  : SM (nat * nat) :=
  result <- test ;;
  sret (if truthy pyfl float_truthy result then S (fst counts)
        else fst counts,
        S (snd counts)).

Fixpoint run_counted (tests : list (SM (json pyfl))) (counts : nat * nat)
  : SM (nat * nat) :=
  match tests with
  | [] => sret counts
  | test :: rest => counts' <- counted test counts ;; run_counted rest counts'
  end.

Definition rule : string := string_of_list_ascii (repeat "="%char 50).

(** The body of [for query in test_queries]. *)
Fixpoint run_queries (queries : list string) (counts : nat * nat)
  : SM (nat * nat) :=
  match queries with
  | [] => sret counts
  | query :: rest =>
      say (newline ++ rule) ;;;
      say ("Testing with query: '" ++ query ++ "'") ;;;
      say rule ;;;
      counts' <- run_counted (tests_of query) counts ;;
      run_queries rest counts'
  end.

(** [run_all_tests] *)
Definition run_all_tests : SM bool :=
  say "Starting Neural Search Tests..." ;;;
  healthy <- test_solr_health ;;
  if negb healthy then
    say "Solr health check failed. Exiting." ;;; sret false
  else
    counts <- run_queries test_queries (0, 0) ;;
    let success_count := fst counts in
    let total_tests := snd counts in
    say (newline ++ rule) ;;;
    say "TEST SUMMARY" ;;;
    say rule ;;;
    say ("Total tests: " ++ str_nat total_tests) ;;;
    say ("Successful: " ++ str_nat success_count) ;;;
    say ("Failed: " ++ str_nat (total_tests - success_count)) ;;;
    (if (total_tests =? 0)%nat
     then sraise (OtherError "ZeroDivisionError")
     else stell (SaySuccessRate success_count total_tests)) ;;;
    sret (success_count =? total_tests)%nat.

End Suite.

Arguments Line {pyfl} ev.
Arguments SayPingOk {pyfl} status.
Arguments SayPingFailed {pyfl}.
Arguments SayCollection {pyfl} num_docs.
Arguments SayStatsFailed {pyfl}.
Arguments SayRerankError {pyfl} e.
Arguments SaySuccessRate {pyfl} success_count total_tests.

(** The result of a test, as [run_all_tests] judges it. *)
Definition passed {pyfl : Type} (float_truthy : pyfl -> bool)
           (test : SM pyfl (json pyfl)) : bool :=
  match fst test with
  | inr result => truthy pyfl float_truthy result
  | inl _ => false
  end.

Definition returns {pyfl : Type} (test : SM pyfl (json pyfl)) : Prop :=
  exists result, fst test = inr result.

(** What a document of a result list shows: its id, its score (a number)
    and its text. *)
Definition shows {pyfl : Type} (doc : json pyfl)
           (hit : json pyfl * json pyfl * string) : Prop :=
  let '(id, score, text) := hit in
  getitem doc "id" = inr id /\
  getitem doc "score" = inr score /\
  format_4f pyfl score = None /\
  getitem doc "text" = inr (JStr text).

(** The two lines printed for each hit, numbered from [i]. *)
Fixpoint hit_lines {pyfl : Type} (i : nat)
         (hits : list (json pyfl * json pyfl * string)) : list (event pyfl) :=
  match hits with
  | [] => []
  | (id, score, text) :: rest =>
      SayHit i id score :: SayText (JStr (prefix 100 text))
        :: hit_lines (S i) rest
  end.

End TesterSuite.

(** ** The command lines of [document_indexing.py] and [vector_generation.py] *)

Module Files.
Import Py.

(** What a path names: nothing, something that [open] refuses with an
    exception (a directory, a file without access), or a text file with its
    lines. *)
Inductive file : Type :=
| Absent
| Unreadable (e : exn)
| Text (lines : list string).

(** [os.path.exists(path)] *)
Definition path_exists (f : file) : bool :=
  match f with Absent => false | _ => true end.

(** [p[:p.rfind('/') + 1]]: the path up to and including its last slash. *)
Fixpoint upto_last_slash (p : string) : string :=
  match p with
  | EmptyString => EmptyString
  | String c r =>
      let h := upto_last_slash r in
      if is_empty h
      then (if Ascii.eqb c "/" then String c EmptyString else EmptyString)
      else String c h
  end.

Fixpoint all_slashes (s : string) : bool :=
  match s with
  | EmptyString => true
  | String c r => Ascii.eqb c "/" && all_slashes r
  end.

(** [os.path.dirname(p)] of [posixpath]. *)
Definition dirname (p : string) : string :=
  let head := upto_last_slash p in
  if negb (is_empty head) && negb (all_slashes head)
  then rstrip_with (fun c => Ascii.eqb c "/") head
  else head.

End Files.

(** ** [sample_data_generator.py] *)

Module SampleData.
Import Py Files.

(** [create_sample_documents()] *)
Definition create_sample_documents : list string :=
  [ "A federal tax identification number (also known as an employer identification number or EIN), is a number assigned solely to your business by the IRS.";
    "A federal tax identification number is used to identify your business to several federal agencies responsible for the regulation of business.";
    "Let's start at the beginning. A tax ID number or employer identification number (EIN) is a number assigned to a business, much like a social security number does for a person.";
    "The bank routing number is a 9-digit number that identifies the financial institution where your account is held.";
    "A routing number, also known as an ABA number or routing transit number, is used to identify a specific bank or credit union.";
    "Bank transit numbers are used for electronic transfers, direct deposits, and automatic bill payments.";
    "Financial institutions use routing numbers to process checks, wire transfers, and ACH transactions.";
    "The Federal Reserve uses routing numbers to process Fedwire funds transfers and automated clearing house transactions.";
    "Credit unions and banks are assigned unique routing numbers by the American Bankers Association.";
    "Electronic fund transfers require both the bank routing number and the account number to complete the transaction.";
    "The presence of communication amid scientific minds was equally important to the success of the Manhattan Project as scientific intellect was. The only cloud hanging over the impressive achievement of the atomic researchers and engineers is what their success truly meant; hundreds of thousands of innocent lives obliterated.";
    "The 23,000-square-mile (60,000 km2) Matanuska-Susitna Borough was established in 1964 with the merger of the Matanuska-Susitna Borough and part of the former Valdez-Cordova Census Area. The borough seat is Palmer, and the largest city is Wasilla.";
    "The researchers were in Baltimore on Tuesday to present their findings at a medical conference. The study's results were more promising than initially believed.";
    "Neural networks are computing systems inspired by biological neural networks that constitute animal brains. Such systems learn to perform tasks by considering examples, generally without being programmed with task-specific rules.";
    "Machine learning is a method of data analysis that automates analytical model building. It is a branch of artificial intelligence based on the idea that systems can learn from data, identify patterns and make decisions with minimal human intervention.";
    "Deep learning is part of a broader family of machine learning methods based on artificial neural networks with representation learning.";
    "Natural language processing combines computational linguistics with statistical, machine learning, and deep learning models to give computers the ability to process human language.";
    "Vector embeddings are numerical representations of data that capture semantic meaning and relationships between different items in a high-dimensional space.";
    "Semantic search uses meaning and context rather than just keyword matching to provide more relevant search results.";
    "Information retrieval systems help users find information that matches their information needs from large collections of documents or data." ].

Section Save.
(** [os.makedirs(path, exist_ok=True)]: the exception it raises, if any. *)
Variable makedirs : string -> option exn.

(** [save_documents(docs, filename)]: the directory of the file is created
    first, and an exception of [os.makedirs] leaves the function; otherwise
    the result is the text written to the file (the loop of
    [f.write(doc + '\n')]) and the number printed in
    "Saved {len(docs)} documents to {filename}".  The file is taken to
    open. *)
Definition save_documents (docs : list string) (filename : string)
  : exn + string * nat :=
  match makedirs (dirname filename) with
  | Some e => inl e
  | None =>
      inr (fold_left (fun out doc => out ++ (doc ++ newline)) docs EmptyString,
           length docs)
  end.

End Save.

End SampleData.

Module IndexingMain.
Import Py DocumentIndexing Files.

(** What [main] prints, besides the lines of the indexing loop. *)
Inductive main_event : Type :=
| Usage
| DocumentsMissing (filename : string)
| VectorsMissing (filename : string)
| Connecting
| ConnectionOk (result : string)
| ConnectionError (e : exn)
| ConnectionFailed
| IndexingFrom (filename : string)
| UsingVectors (filename : string)
| Loop (ev : event)
| IndexingError (e : exn).

Section Main.
Context {B : Type} {client : IndexClient B}.

(** [solr.ping()]: the answer, or the exception raised. *)
Variable ping : B -> B * (exn + string).
Variable fs : string -> file.

(** [test_connection(solr)] *)
Definition test_connection (solr : B) : B * bool * list main_event :=
  match ping solr with
  | (solr', inr result) => (solr', true, [ConnectionOk result])
  | (solr', inl e) => (solr', false, [ConnectionError e])
  end.

Definition open_text (filename : string) : exn + list string :=
  match fs filename with
  | Absent => inl (OtherError "FileNotFoundError")
  | Unreadable e => inl e
  | Text lines => inr lines
  end.

(** [index_documents] from the two file names: the documents file is opened
    first. *)
Definition index_files (solr : B) (documents_filename embedding_filename : string)
  : outcome B * list main_event :=
  let opening := [IndexingFrom documents_filename; UsingVectors embedding_filename] in
  match open_text documents_filename with
  | inl e => (Raised e solr, opening)
  | inr documents_file =>
      match open_text embedding_filename with
      | inl e => (Raised e solr, opening)
      | inr vectors_file =>
          let r := index_documents solr documents_file vectors_file in
          (fst r, (opening ++ map Loop (snd r))%list)
      end
  end.

(** [main()] with [sys.argv]: the status given to [sys.exit], if any, the
    backend at the end and what was printed. *)
Definition main (argv : list string) (solr : B)
  : option nat * B * list main_event :=
  match argv with
  | [_; documents_filename; embedding_filename] =>
      if negb (path_exists (fs documents_filename)) then
        (Some 1, solr, [DocumentsMissing documents_filename])
      else if negb (path_exists (fs embedding_filename)) then
        (Some 1, solr, [VectorsMissing embedding_filename])
      else
        let '(solr1, connected, said) := test_connection solr in
        if negb connected then
          (Some 1, solr1, (Connecting :: said ++ [ConnectionFailed])%list)
        else
          match index_files solr1 documents_filename embedding_filename with
          | (Returned solr2, evs) =>
              (None, solr2, (Connecting :: said ++ evs)%list)
          | (Raised e solr2, evs) =>
              (Some 1, solr2,
               (Connecting :: said ++ evs ++ [IndexingError e])%list)
          end
  | _ => (Some 1, solr, [Usage])
  end.

End Main.

End IndexingMain.

Module GenerationMain.
Import Py VectorGeneration Files.

Inductive main_event : Type :=
| Usage
| InputMissing (filename : string)
| LoadingModel
| ProcessingFrom (filename : string)
| OutputTo (filename : string)
| Batch (ev : event)
| Completed.

(** How [main] ends: the status given to [sys.exit] or the exception that
    leaves it, the output file if it was opened, and what was printed. *)
Record ending : Type := mkEnding {
  exit_status : option nat;
  escaped : option exn;
  output : option (string * string);
  said : list main_event
}.

Section Main.
Variable npfloat : Type.
Variable str_np : npfloat -> string.
Variable model_encode : list string -> list (list npfloat).
Variable fs : string -> file.

(** [os.makedirs(path, exist_ok=True)]: the exception it raises, if any. *)
Variable makedirs : string -> option exn.

(** [main()] with [sys.argv]; the model is taken to load. *)
Definition main (argv : list string) : ending :=
  match argv with
  | [_; input_filename; output_filename] =>
      if negb (path_exists (fs input_filename)) then
        mkEnding (Some 1) None None [InputMissing input_filename]
      else
        match makedirs (dirname output_filename) with
        | Some e => mkEnding None (Some e) None []
        | None =>
            let opening := [LoadingModel; ProcessingFrom input_filename;
                            OutputTo output_filename] in
            match fs input_filename with
            | Absent =>
                mkEnding None (Some (OtherError "FileNotFoundError")) None opening
            | Unreadable e => mkEnding None (Some e) None opening
            | Text documents_file =>
                let r := batch_encode_to_vectors npfloat str_np model_encode
                                                 documents_file in
                match raised r with
                | Some e =>
                    mkEnding None (Some e) (Some (output_filename, written r))
                             (opening ++ map Batch (printed r))%list
                | None =>
                    mkEnding None None (Some (output_filename, written r))
                             (opening ++ map Batch (printed r) ++ [Completed])%list
                end
            end
        end
  | _ => mkEnding (Some 1) None None [Usage]
  end.

End Main.

End GenerationMain.

(** ** Backends and measures used to state the behaviour of indexing *)

Module Backends.
Import Py DocumentIndexing.

(** A backend on which [add] always raises [e]; it keeps the batches it
    was offered, oldest first. *)
Definition refusing (e : exn) : IndexClient (list (list IndexEntry)) := {|
  add calls batch := ((calls ++ [batch])%list, Some e)
|}.

(** The number of occurrences of a character in a text. *)
Fixpoint count_char (c : ascii) (s : string) : nat :=
  match s with
  | EmptyString => 0
  | String x r => (if Ascii.eqb x c then 1 else 0) + count_char c r
  end.

(** The most entries the buffer of [index_documents] holds on reaching
    [index], when every line before it was well formed. *)
Definition buffer_bound (index : nat) : nat :=
  match index with
  | 0 => 0
  | S k => k mod BATCH_SIZE + 1
  end.

(** A vector line that [parse_vector] refuses. *)
Definition malformed (vector_string : string) : Prop :=
  exists e, parse_vector vector_string = inl e.

End Backends.

(** * Properties *)

(** ** Texts *)

Module StringFacts.

Lemma append_nil_r (s : string) : s ++ EmptyString = s.
Proof. induction s as [|c s IH]; simpl; [reflexivity | now rewrite IH]. Qed.

Lemma append_assoc (a b c : string) : (a ++ b) ++ c = a ++ (b ++ c).
Proof. induction a as [|x a IH]; simpl; [reflexivity | now rewrite IH]. Qed.

Lemma fold_join_prefix (sep a b : string) (ys : list string) :
  fold_left (fun acc y => acc ++ sep ++ y) ys (a ++ b)
  = a ++ fold_left (fun acc y => acc ++ sep ++ y) ys b.
Proof.
  revert b. induction ys as [|z zs IH]; intros b; simpl; [reflexivity |].
  now rewrite append_assoc, IH.
Qed.

(** [join] by recursion on the items, the way the claims read it. *)
Lemma join_cons (sep x : string) (xs : list string) :
  Py.join sep (x :: xs)
  = match xs with
    | [] => x
    | _ :: _ => x ++ sep ++ Py.join sep xs
    end.
Proof.
  destruct xs as [|y ys]; [reflexivity |].
  unfold Py.join. simpl. now rewrite !fold_join_prefix.
Qed.

End StringFacts.

(** ** Indexing *)

Module IndexingFacts.
Import Py DocumentIndexing.

Lemma floats_fail_iff (tokens : list string) :
  (exists e, floats tokens = inl e) <->
  (exists w, In w tokens /\ exists e, float w = inl e).
Proof.
  induction tokens as [|w ws IH]; simpl.
  - split; [intros [e He]; discriminate | intros [w [[] _]]].
  - destruct (float w) as [e|x] eqn:Hw.
    + split; [intros _; exists w; split; [now left | now exists e]
             | intros _; now exists e].
    + destruct (floats ws) as [e|xs].
      * split; [intros _ | intros _; now exists e].
        destruct (proj1 IH (ex_intro _ e eq_refl)) as [w' [Hin Hbad]].
        exists w'; split; [now right | exact Hbad].
      * split; [intros [e He]; discriminate |].
        intros [w' [[<- | Hin] [e He]]]; [congruence |].
        destruct (proj2 IH) as [e' He']; [|discriminate].
        exists w'; split; [exact Hin | now exists e].
Qed.

Lemma entries_from_length (pairs : list (string * string)) (index : nat) :
  length (entries_from index pairs) <= length pairs.
Proof.
  revert index; induction pairs as [|[d v] rest IH]; intros index; simpl.
  - lia.
  - destruct (parse_vector v); simpl; specialize (IH (S index)); lia.
Qed.

Lemma entries_from_all_parse (pairs : list (string * string)) (index : nat) :
  Forall (fun p => parses (snd p)) pairs ->
  length (entries_from index pairs) = length pairs.
Proof.
  intros Hall; revert index.
  induction Hall as [|[d v] rest [x Hx] _ IH]; intros index; simpl.
  - reflexivity.
  - simpl in Hx. rewrite Hx. simpl. now rewrite IH.
Qed.

(** What a run against the recording backend does, from any point of the
    loop: it returns, every entry built so far or later is in some batch,
    in order, and no call carries an empty batch. *)
Lemma index_loop_recorder (pairs : list (string * string)) :
  forall (calls : list (list IndexEntry)) (documents : list IndexEntry)
         (index : nat),
  exists calls' evs,
    index_loop calls documents index pairs = (Returned calls', evs) /\
    concat calls' = (concat calls ++ documents ++ entries_from index pairs)%list /\
    length (entries_from index pairs) + skipped evs = length pairs /\
    (Forall (fun batch => batch <> []) calls ->
     Forall (fun batch => batch <> []) calls').
Proof.
  induction pairs as [|[document vector_string] rest IH];
    intros calls documents index.
  - destruct documents as [|d ds].
    + exists calls, [IndexingFinished]. simpl.
      split; [reflexivity | split; [now rewrite app_nil_r | split; auto]].
    + exists (calls ++ [d :: ds])%list,
        [IndexedRemaining (length (d :: ds)); IndexingFinished].
      simpl. split; [reflexivity | split; [| split; [reflexivity |]]].
      * rewrite concat_app. simpl. now rewrite !app_nil_r.
      * intros Hne. apply Forall_app. split; [exact Hne|].
        constructor; [discriminate | constructor].
  - simpl. destruct (parse_vector vector_string) as [e|vector].
    + destruct (IH calls documents (S index))
        as (calls' & evs & Hrun & Hcat & Hlen & Hne).
      exists calls', (ErrorProcessing index e :: evs).
      rewrite Hrun. unfold say, skipped in *. simpl.
      split; [reflexivity | split; [exact Hcat | split; [lia | exact Hne]]].
    + set (doc := mkEntry (str_nat index) (strip document) vector).
      destruct (flush_due index).
      * destruct (IH (calls ++ [documents ++ [doc]])%list [] (S index))
          as (calls' & evs & Hrun & Hcat & Hlen & Hne).
        exists calls', (Indexed index :: evs).
        rewrite Hrun. unfold say, skipped in *. simpl.
        split; [reflexivity | split; [| split; [lia |]]].
        -- rewrite Hcat, concat_app. simpl.
           now rewrite app_nil_r, <- !app_assoc.
        -- intros H0. apply Hne, Forall_app. split; [exact H0|].
           constructor; [|constructor].
           destruct documents; discriminate.
      * destruct (IH calls (documents ++ [doc])%list (S index))
          as (calls' & evs & Hrun & Hcat & Hlen & Hne).
        exists calls', evs. rewrite Hrun.
        split; [reflexivity | split; [| split; [simpl; lia | exact Hne]]].
        rewrite Hcat. now rewrite <- !app_assoc.
Qed.

End IndexingFacts.

Module IndexingSpec.
Import Py DocumentIndexing IndexingFacts.

Lemma combine_all_parse (documents_file vectors_file : list string) :
  Forall parses vectors_file ->
  Forall (fun p => parses (snd p)) (combine documents_file vectors_file).
Proof.
  intros Hall; revert documents_file.
  induction Hall as [|v vs Hv _ IH]; intros [|d ds]; simpl;
    constructor; auto.
Qed.

(** C1 (the code departs from the claim).  On 101 documents with 101
    well-formed vector lines the only call of [add] is made at index 100
    and carries the 101 entries numbered 0 to 100, one more than
    [BATCH_SIZE]; and when line 100 of 150 is malformed, the flush at index
    100 is not reached and the single remaining batch holds 149 entries. *)
Theorem first_flush_exceeds_BATCH_SIZE :
  (exists batch,
      index_documents [] (repeat "d" 101) (repeat "1.0" 101)
      = (Returned [batch], [Indexed 100; IndexingFinished]) /\
      length batch = 101 /\ BATCH_SIZE < length batch) /\
  (exists batch,
      index_documents [] (repeat "d" 150)
                      (repeat "1.0" 100 ++ "x" :: repeat "1.0" 49)%list
      = (Returned [batch],
         [ErrorProcessing 100 (ValueError "x"); IndexedRemaining 149;
          IndexingFinished]) /\
      BATCH_SIZE < length batch).
Proof.
  split.
  - eexists. split; [vm_compute; reflexivity |].
    split; [reflexivity | vm_compute; lia].
  - eexists. split; [vm_compute; reflexivity | vm_compute; lia].
Qed.

(** C2.  With the vector lines "1.0,2.0", "x,2.0", "3.0,4.0" and any three
    documents, the run returns, exactly two entries reach the backend, their
    ids are "0" and "2" (the position in the input, not renumbered), and
    exactly one record is reported as skipped, the one at position 1. *)
Theorem malformed_vector_line_skips_one_record (d0 d1 d2 : string) :
  exists calls evs,
    index_documents [] [d0; d1; d2] ["1.0,2.0"; "x,2.0"; "3.0,4.0"]
    = (Returned calls, evs) /\
    concat calls =
      [ mkEntry "0" (strip d0) [FDec false 10 (-1); FDec false 20 (-1)];
        mkEntry "2" (strip d2) [FDec false 30 (-1); FDec false 40 (-1)] ] /\
    map id (concat calls) = ["0"; "2"] /\
    skipped evs = 1 /\
    evs = [ErrorProcessing 1 (ValueError "x"); IndexedRemaining 2;
           IndexingFinished].
Proof.
  do 2 eexists. split; [reflexivity |]. repeat split.
Qed.

(** C5.  Records are paired up to the end of the shorter stream: when the
    vector lines are well formed, the run returns, nothing is reported as
    skipped, and the number of entries sent is the smaller of the two
    lengths; five documents with three vector lines give three entries. *)
Theorem pairing_stops_at_shorter_stream
        (documents_file vectors_file : list string) :
  Forall parses vectors_file ->
  exists calls evs,
    index_documents [] documents_file vectors_file = (Returned calls, evs) /\
    length (concat calls)
    = Nat.min (length documents_file) (length vectors_file) /\
    skipped evs = 0 /\
    (length documents_file = 5 -> length vectors_file = 3 ->
     length (concat calls) = 3).
Proof.
  intros Hall. unfold index_documents.
  destruct (index_loop_recorder (combine documents_file vectors_file) [] [] 0)
    as (calls & evs & Hrun & Hcat & Hlen & _).
  pose proof (entries_from_all_parse _ 0
                (combine_all_parse documents_file _ Hall)) as Hall'.
  simpl in Hcat. rewrite length_combine in Hall'.
  exists calls, evs. split; [exact Hrun |].
  rewrite Hcat. split; [exact Hall' |]. split.
  - rewrite length_combine in Hlen. lia.
  - intros H5 H3. rewrite Hall', H5, H3. reflexivity.
Qed.

Lemma pairing_stops_at_shorter_stream_witness :
  exists calls evs,
    index_documents [] ["a"; "b"; "c"; "d"; "e"] ["1,2"; "3,4"; "5,6"]
    = (Returned calls, evs) /\
    length (concat calls) = 3 /\
    skipped evs = 0 /\
    (5 = 5 -> 3 = 3 -> length (concat calls) = 3).
Proof.
  apply (pairing_stops_at_shorter_stream
           ["a"; "b"; "c"; "d"; "e"] ["1,2"; "3,4"; "5,6"]).
  repeat constructor; eexists; vm_compute; reflexivity.
Defined.

(** C9.  With no document line, whatever the backend and whatever the
    vector lines, the run returns at once with the backend it was given:
    [add] is never called. *)
Theorem empty_input_leaves_backend_untouched
        (B : Type) (client : IndexClient B) (solr : B)
        (vectors_file : list string) :
  index_documents solr [] vectors_file = (Returned solr, [IndexingFinished]).
Proof. reflexivity. Qed.

(** C10.  Decoding a vector line raises exactly when [float] refuses one
    of its comma-separated tokens.  "nan", "inf", "-inf", "1e-3" and tokens
    with white space around them are accepted, so the line "nan,inf" is
    indexed as a vector; an empty token, as in a blank line, is refused. *)
Theorem parse_vector_fails_iff_float_refuses_a_token :
  (forall vector_string,
      (exists e, parse_vector vector_string = inl e) <->
      (exists w, In w (split "," (strip vector_string)) /\
                 exists e, float w = inl e)) /\
  float "nan" = inr FNan /\
  float "inf" = inr (FInf false) /\
  float "-inf" = inr (FInf true) /\
  float "1e-3" = inr (FDec false 1 (-3)) /\
  parse_vector " 1.0 , 2.0 " = inr [FDec false 10 (-1); FDec false 20 (-1)] /\
  index_documents [] ["doc"] ["nan,inf"]
  = (Returned [[mkEntry "0" "doc" [FNan; FInf false]]],
     [IndexedRemaining 1; IndexingFinished]) /\
  float EmptyString = inl (ValueError EmptyString) /\
  parse_vector newline = inl (ValueError EmptyString) /\
  parse_vector "1.0,,2.0" = inl (ValueError EmptyString).
Proof.
  split; [intros vector_string; apply floats_fail_iff |].
  repeat split.
Qed.

End IndexingSpec.

(** ** Vector generation *)

Module GenerationFacts.
Import Py VectorGeneration StringFacts.

Lemma one_line_app (a b : string) :
  one_line (a ++ b) = one_line a && one_line b.
Proof.
  induction a as [|c a IH]; [reflexivity |].
  cbn [append one_line]. now rewrite IH, !andb_assoc.
Qed.

Lemma one_line_join (sep : string) (items : list string) :
  one_line sep = true ->
  Forall (fun s => one_line s = true) items ->
  one_line (join sep items) = true.
Proof.
  intros Hsep Hall. induction Hall as [|x xs Hx Hxs IH]; [reflexivity |].
  rewrite join_cons. destruct xs as [|y ys]; [exact Hx |].
  now rewrite !one_line_app, Hx, Hsep, IH.
Qed.

Lemma readlines_line (l rest : string) :
  one_line l = true ->
  readlines (l ++ newline ++ rest) = (l ++ newline) :: readlines rest.
Proof.
  unfold readlines.
  induction l as [|c l IH]; intros Hl; [reflexivity |].
  cbn [append read_lines one_line] in *.
  apply andb_prop in Hl as [Hc Hl]. apply andb_prop in Hc as [Hlf Hcr].
  apply negb_true_iff in Hlf, Hcr. rewrite Hlf, Hcr.
  now rewrite (IH Hl).
Qed.

Lemma join_comma_separated (texts : list string) :
  join "," texts = comma_separated texts.
Proof.
  induction texts as [|t rest IH]; [reflexivity |].
  rewrite join_cons. cbn [comma_separated].
  destruct rest; [reflexivity | now rewrite IH].
Qed.

Lemma readlines_unlines (lines : list string) :
  Forall (fun l => one_line l = true) lines ->
  readlines (unlines lines) = map (fun l => l ++ newline) lines.
Proof.
  induction 1 as [|l ls Hl _ IH]; [reflexivity |].
  cbn [unlines map]. now rewrite readlines_line, IH.
Qed.

Lemma unlines_app (xs ys : list string) :
  unlines (xs ++ ys) = unlines xs ++ unlines ys.
Proof.
  induction xs as [|x xs IH]; [reflexivity |].
  rewrite <- app_comm_cons. cbn [unlines]. now rewrite IH, !append_assoc.
Qed.

Section Embedder.
Variable npfloat : Type.
Variable str_np : npfloat -> string.
Variable model_encode : list string -> list (list npfloat).

(** The embedder's contract: one vector per text, in the order of the
    texts, each a function of its text alone. *)
Variable embed : string -> list npfloat.
Hypothesis model_encode_pointwise :
  forall documents, model_encode documents = map embed documents.

(** [str] of a number has no line feed and no carriage return in it. *)
Hypothesis str_np_one_line : forall x, one_line (str_np x) = true.


Lemma write_vectors_unlines (vectors : list (list npfloat)) (out : string) :
  write_vectors npfloat str_np out vectors
  = out ++ unlines (map (vector_line npfloat str_np) vectors).
Proof.
  unfold write_vectors. revert out.
  induction vectors as [|v vs IH]; intros out; cbn [fold_left map unlines].
  - now rewrite append_nil_r.
  - now rewrite IH, !append_assoc.
Qed.

Lemma vector_line_one_line (v : list npfloat) :
  one_line (vector_line npfloat str_np v) = true.
Proof.
  apply one_line_join; [reflexivity |].
  apply Forall_map, Forall_forall. intros x _. apply str_np_one_line.
Qed.

Lemma batch_loop_written (documents_file : list string) :
  forall processed out,
    let r := batch_loop npfloat str_np model_encode documents_file processed out in
    raised r = None /\
    written r
    = out ++ unlines (map (line_of npfloat str_np embed) documents_file).
Proof.
  induction documents_file as [documents_file IH]
    using (induction_ltof1 _ (@length string)).
  intros processed out.
  destruct documents_file as [|d ds].
  - simp batch_loop. simpl. now rewrite append_nil_r.
  - simp batch_loop. unfold encode.
    rewrite model_encode_pointwise.
    change BATCH_SIZE with (S 99). rewrite firstn_cons.
    cbn [map batch_loop_unfold_clause_2].
    change (skipn BATCH_SIZE (d :: ds)) with (skipn 99 ds).
    destruct (IH (skipn 99 ds)) with
      (processed := S processed)
      (out := write_vectors npfloat str_np out (embed d :: map embed (firstn 99 ds)))
      as [Hraised Hwritten].
    { unfold ltof. rewrite length_skipn. simpl. lia. }
    cbn zeta in *. cbn [raised written].
    split; [exact Hraised |].
    rewrite Hwritten, write_vectors_unlines, append_assoc.
    f_equal.
    rewrite <- unlines_app.
    change (embed d :: map embed (firstn 99 ds))
      with (map embed (firstn (S 99) (d :: ds))).
    rewrite map_map, <- map_app.
    change (skipn 99 ds) with (skipn (S 99) (d :: ds)).
    now rewrite firstn_skipn.
Qed.

(** C3.  For an embedder that returns one vector per text in the order
    of the texts, generation ends without error and the text written to the
    output file is, for each input document in order, the texts of the
    components of its embedding separated by commas, followed by a line
    feed, whatever the number of documents (a last batch shorter than
    [BATCH_SIZE] included).  When the text of a component has neither line
    feed nor carriage return, the file therefore reads back as exactly one
    line per input document, the line at position i being that of
    document i. *)
Theorem generated_lines_follow_documents (documents_file : list string) :
  let r := batch_encode_to_vectors npfloat str_np model_encode documents_file in
  let line := fun document => comma_separated (map str_np (embed document)) in
  raised r = None /\
  written r = unlines (map line documents_file) /\
  readlines (written r)
  = map (fun document => line document ++ newline) documents_file /\
  length (readlines (written r)) = length documents_file /\
  (forall i document,
      nth_error documents_file i = Some document ->
      nth_error (readlines (written r)) i = Some (line document ++ newline)).
Proof.
  intros r line.
  destruct (batch_loop_written documents_file 0 EmptyString)
    as [Hraised Hwritten].
  fold (batch_encode_to_vectors npfloat str_np model_encode documents_file) in *.
  fold r in Hraised, Hwritten. cbn [append] in Hwritten.
  assert (map (line_of npfloat str_np embed) documents_file
          = map line documents_file) as Hspelled.
  { apply map_ext. intros document. apply join_comma_separated. }
  rewrite Hspelled in Hwritten.
  assert (Hlines : readlines (written r)
                   = map (fun document => line document ++ newline)
                         documents_file).
  { rewrite Hwritten, readlines_unlines, map_map; [reflexivity |].
    apply Forall_map, Forall_forall. intros document _.
    unfold line. rewrite <- join_comma_separated.
    apply vector_line_one_line. }
  split; [exact Hraised |]. split; [exact Hwritten |].
  split; [exact Hlines |]. split.
  - now rewrite Hlines, length_map.
  - intros i document Hi. rewrite Hlines.
    now rewrite nth_error_map, Hi.
Qed.

End Embedder.

Lemma generated_lines_follow_documents_witness :
  let str_np := fun b : bool => if b then "1.0" else "0.0" in
  let embed := fun d : string => [Nat.even (String.length d); true] in
  let documents_file := ["a" ++ newline; "bb" ++ newline; "ccc"] in
  let r := batch_encode_to_vectors bool str_np (map embed) documents_file in
  let line := fun document => comma_separated (map str_np (embed document)) in
  raised r = None /\
  written r = unlines (map line documents_file) /\
  readlines (written r)
  = map (fun document => line document ++ newline) documents_file /\
  length (readlines (written r)) = 3 /\
  (forall i document,
      nth_error documents_file i = Some document ->
      nth_error (readlines (written r)) i = Some (line document ++ newline)).
Proof.
  intros str_np embed documents_file.
  apply (generated_lines_follow_documents bool str_np (map embed) embed).
  - reflexivity.
  - intros []; reflexivity.
Defined.

End GenerationFacts.

(** ** Query payloads and responses *)

Module TesterFacts.
Import Py NeuralSearchTester TesterSuite StringFacts.

Lemma join_spaced (ids : list string) : join " " ids = spaced ids.
Proof.
  induction ids as [|i rest IH]; [reflexivity |].
  rewrite join_cons. cbn [spaced].
  destruct rest; [reflexivity | now rewrite IH].
Qed.

Section Queries.
Variable pyfl : Type.
Variable float_truthy : pyfl -> bool.
Variable repr_float : pyfl -> string.
Variable solr_url : string.
Variable vectorize_query : string -> list pyfl.
Variable http : request pyfl -> exn + json pyfl.
Variable http_params : string -> list (string * string) -> exn + json pyfl.

(** A request exception is absorbed by [make_request]. *)
Lemma make_request_absorbs (endpoint : string) (data : option (json pyfl))
      (msg : string) :
  http (mkRequest POST (solr_url ++ endpoint) data) = inl (RequestException msg) ->
  make_request pyfl solr_url http endpoint data "POST"
  = (inr JNull,
     [Say ("Error making request to " ++ (solr_url ++ endpoint) ++ ": " ++ msg)]).
Proof.
  intros Hreq. unfold make_request. cbv zeta.
  rewrite String.eqb_refl, Hreq. reflexivity.
Qed.

Lemma make_request_decoded (endpoint : string) (data : option (json pyfl))
      (decoded : json pyfl) :
  http (mkRequest POST (solr_url ++ endpoint) data) = inr decoded ->
  make_request pyfl solr_url http endpoint data "POST" = (inr decoded, []).
Proof.
  intros Hreq. unfold make_request. cbv zeta.
  rewrite String.eqb_refl, Hreq. reflexivity.
Qed.

(** C7.  The payload of the filtered KNN query has the two fields "query"
    and "filter"; the filter is "id:(" followed by the ids separated by single
    spaces in the order given, followed by ")", and the query is the KNN
    clause on the field "vector" with the given topK.  For the ids "0" and
    "1" the filter is "id:(0 1)". *)
Theorem filtered_knn_payload (top_k : Z) (vector : list pyfl)
        (filter_ids : list string) :
  let payload := prefiltering_query_data pyfl repr_float top_k vector filter_ids in
  getitem payload "filter" = inr (JStr ("id:(" ++ spaced filter_ids ++ ")")) /\
  getitem payload "query"
  = inr (JStr ("{!knn f=vector topK=" ++ str_int top_k ++ "}"
               ++ str_list pyfl repr_float vector)) /\
  (exists fields, payload = JObj fields /\ dict_keys fields = ["query"; "filter"]) /\
  filter_query ["0"; "1"] = "id:(0 1)" /\
  knn_clause pyfl repr_float 3 vector = "{!knn f=vector topK=3}" ++ str_list pyfl repr_float vector.
Proof.
  intros payload. subst payload. unfold prefiltering_query_data.
  split; [| split; [| split; [| split]]].
  - simpl. unfold filter_query. now rewrite join_spaced.
  - reflexivity.
  - eexists. split; reflexivity.
  - reflexivity.
  - reflexivity.
Qed.

(** C8.  The payload of the hybrid query holds, under "query" then "bool",
    an object whose only key is "should" (no "must"), and the value of
    "should" is a list of exactly two clauses: the edismax clause on the given
    field with the given text, then the KNN clause on the field "vector" with
    the given topK. *)
Theorem hybrid_payload (top_k : Z) (vector : list pyfl)
        (lexical_field lexical_query : string) :
  let payload :=
    hybrid_query_data pyfl repr_float top_k vector lexical_field lexical_query in
  exists query_fields bool_fields,
    payload = JObj [("query", JObj query_fields)] /\
    query_fields = [("bool", JObj bool_fields)] /\
    dict_keys bool_fields = ["should"] /\
    dict_get bool_fields "must" = None /\
    dict_get bool_fields "should"
    = Some (JArr [ JStr ("{!type=edismax qf=" ++ lexical_field
                         ++ " v='" ++ lexical_query ++ "'}");
                   JStr ("{!knn f=vector topK=" ++ str_int top_k ++ "}"
                         ++ str_list pyfl repr_float vector) ]).
Proof.
  intros payload. subst payload. unfold hybrid_query_data.
  do 2 eexists. repeat split.
Qed.

(** C6 (as amended).  The request-and-print step shared by the basic KNN,
    filtered KNN and hybrid tests returns [None] with something printed
    exactly when the HTTP request raises a request exception, and what is
    printed is then the error; any other exception of the request leaves it;
    a falsy decoded response ([null], an empty object, ...) is handed back as
    it is with nothing printed; a non-empty JSON object without "response",
    or whose "response" object has no "numFound", makes it raise [KeyError]
    to the caller.  Each of the three tests prints its banner and then does
    exactly that step.  The re-ranking test differs: it returns [None] with
    the error printed for every exception of its request, and it too raises
    [KeyError] on a non-empty object without "response". *)
Theorem query_outcome_by_response (query_data : json pyfl) :
  let target := solr_url ++ "/select?fl=id,text,score" in
  let req := mkRequest POST target (Some query_data) in
  let step := execute pyfl float_truthy solr_url http in
  ((exists evs, step query_data = (inr JNull, evs) /\ evs <> [])
   <-> exists msg, http req = inl (RequestException msg)) /\
  (forall msg,
      http req = inl (RequestException msg) ->
      step query_data
      = (inr JNull,
         [Say ("Error making request to " ++ target ++ ": " ++ msg)])) /\
  (forall e,
      http req = inl e ->
      is_RequestException e = false ->
      step query_data = (inl e, [])) /\
  (forall decoded,
      http req = inr decoded ->
      truthy pyfl float_truthy decoded = false ->
      step query_data = (inr decoded, [])) /\
  (forall fields,
      http req = inr (JObj fields) ->
      fields <> [] ->
      dict_get fields "response" = None ->
      step query_data = (inl (KeyError "response"), [])) /\
  (forall fields response,
      http req = inr (JObj fields) ->
      dict_get fields "response" = Some (JObj response) ->
      dict_get response "numFound" = None ->
      step query_data = (inl (KeyError "numFound"), [])) /\
  (forall query top_k,
      let payload := knn_query_data pyfl repr_float top_k (vectorize_query query) in
      test_basic_knn_query pyfl float_truthy repr_float solr_url
                           vectorize_query http query top_k
      = (fst (step payload),
         Say (newline ++ "=== Test 1: Basic KNN Query ===")
           :: Say ("Query: '" ++ query ++ "'")
           :: Say ("TopK: " ++ str_int top_k)
           :: snd (step payload))) /\
  (forall query filter_ids top_k,
      let payload := prefiltering_query_data pyfl repr_float top_k
                       (vectorize_query query) filter_ids in
      test_knn_with_prefiltering pyfl float_truthy repr_float solr_url
                                 vectorize_query http query filter_ids top_k
      = (fst (step payload),
         Say (newline ++ "=== Test 2: KNN with Pre-filtering ===")
           :: Say ("Query: '" ++ query ++ "'")
           :: SayFilterIds filter_ids
           :: Say ("TopK: " ++ str_int top_k)
           :: snd (step payload))) /\
  (forall query lexical_field lexical_query top_k,
      let payload := hybrid_query_data pyfl repr_float top_k
                       (vectorize_query query) lexical_field lexical_query in
      test_hybrid_search pyfl float_truthy repr_float solr_url
                         vectorize_query http query lexical_field
                         lexical_query top_k
      = (fst (step payload),
         Say (newline ++ "=== Test 3: Hybrid Search ===")
           :: Say ("Neural query: '" ++ query ++ "'")
           :: Say ("Lexical query: '" ++ lexical_query ++ "' in field '"
                   ++ lexical_field ++ "'")
           :: Say ("TopK: " ++ str_int top_k)
           :: snd (step payload))) /\
  (forall initial_query rerank_query rerank_docs rerank_weight,
      let params := rerank_params pyfl repr_float initial_query rerank_docs
                                  rerank_weight (vectorize_query rerank_query) in
      let test := test_reranking_query pyfl float_truthy repr_float solr_url
                    vectorize_query http_params initial_query rerank_query
                    rerank_docs rerank_weight in
      (forall e,
          http_params (solr_url ++ "/select") params = inl e ->
          fst test = inr JNull /\ In (SayRerankError e) (snd test)) /\
      (forall fields,
          http_params (solr_url ++ "/select") params = inr (JObj fields) ->
          fields <> [] ->
          dict_get fields "response" = None ->
          fst test = inl (KeyError "response"))).
Proof.
  intros target req step. subst step.
  assert (forall msg,
             http req = inl (RequestException msg) ->
             execute pyfl float_truthy solr_url http query_data
             = (inr JNull,
                [Say ("Error making request to " ++ target ++ ": " ++ msg)]))
    as Habsorbed.
  { intros msg Hreq. unfold execute.
    rewrite (make_request_absorbs _ _ _ Hreq). reflexivity. }
  assert (forall decoded,
             http req = inr decoded ->
             truthy pyfl float_truthy decoded = false ->
             execute pyfl float_truthy solr_url http query_data
             = (inr decoded, [])) as Hfalsy.
  { intros decoded Hreq Hno. unfold execute.
    rewrite (make_request_decoded _ _ _ Hreq).
    unfold bind. cbn [fst snd]. rewrite Hno. reflexivity. }
  assert (forall e,
             http req = inl e ->
             is_RequestException e = false ->
             execute pyfl float_truthy solr_url http query_data = (inl e, []))
    as Hother.
  { intros e Hreq He. unfold execute, make_request. cbv zeta.
    fold target. fold req. rewrite String.eqb_refl, Hreq, He. reflexivity. }
  split; [| split; [exact Habsorbed | split; [exact Hother |
          split; [exact Hfalsy | split; [| split; [| split; [| split; [| split]]]]]]]].
  - split.
    + intros (evs & Hstep & Hprinted).
      destruct (http req) as [e|decoded] eqn:Hreq.
      * destruct (is_RequestException e) eqn:He.
        -- destruct e; try discriminate. now exists msg.
        -- rewrite (Hother e eq_refl He) in Hstep. discriminate.
      * destruct (truthy pyfl float_truthy decoded) eqn:Hyes.
        -- exfalso. unfold execute in Hstep.
           rewrite (make_request_decoded _ _ _ Hreq) in Hstep.
           unfold bind in Hstep. cbn [fst snd] in Hstep. rewrite Hyes in Hstep.
           destruct (fst (show_result pyfl decoded)); cbn [fst snd] in Hstep;
             [discriminate |].
           injection Hstep as Hnull _. subst decoded. discriminate.
        -- rewrite (Hfalsy decoded eq_refl Hyes) in Hstep.
           injection Hstep as _ Hevs. now elim Hprinted.
    + intros [msg Hreq]. rewrite (Habsorbed msg Hreq).
      eexists. split; [reflexivity | discriminate].
  - intros fields Hreq Hne Hmiss. unfold execute.
    rewrite (make_request_decoded _ _ _ Hreq).
    unfold bind. cbn [fst snd].
    destruct fields as [|f fs]; [now elim Hne |].
    cbn [truthy]. unfold show_result, bind, lift. cbn [fst snd getitem].
    rewrite Hmiss. reflexivity.
  - intros fields response Hreq Hresp Hmiss. unfold execute.
    rewrite (make_request_decoded _ _ _ Hreq).
    unfold bind. cbn [fst snd].
    destruct fields as [|f fs]; [discriminate |].
    cbn [truthy]. unfold show_result, bind, lift. cbn [fst snd getitem].
    rewrite Hresp. cbn [fst snd getitem]. rewrite Hmiss. reflexivity.
  - reflexivity.
  - reflexivity.
  - reflexivity.
  - intros initial_query rerank_query rerank_docs rerank_weight params test.
    subst test. unfold test_reranking_query. fold params. split.
    + intros e He. rewrite He. cbn. split; [reflexivity |].
      do 4 right. now left.
    + intros fields Hfields Hne Hmiss. rewrite Hfields.
      destruct fields as [|f fs]; [now elim Hne |].
      cbn [truthy]. unfold sbind, say, stell, run, show_result, bind, lift.
      cbn [fst snd getitem]. rewrite Hmiss. reflexivity.
Qed.

End Queries.

(** A backend that answers every request with a JSON object that has a
    response header and nothing else. *)
Lemma missing_response_field_raises_KeyError :
  let decoded := JObj [("responseHeader", JObj [("status", @JInt Z 0)])] in
  getitem decoded "response" = inl (KeyError "response") /\
  fst (test_basic_knn_query Z (fun z => negb (z =? 0)%Z) str_int
         "http://localhost:8983/solr/ms-marco" (fun _ => [1; 2]%Z)
         (fun _ => inr decoded) "what is a bank transit number" 3)
  = inl (KeyError "response").
Proof. split; reflexivity. Qed.

Lemma query_outcome_by_response_witness :
  let decoded := [("responseHeader", JObj [("status", @JInt Z 0)])] in
  execute Z (fun z => negb (z =? 0)%Z) "http://localhost:8983/solr/ms-marco"
          (fun _ => inr (JObj decoded)) (knn_query_data Z str_int 3 [1; 2]%Z)
  = (inl (KeyError "response"), []).
Proof.
  intros decoded.
  destruct (query_outcome_by_response Z (fun z => negb (z =? 0)%Z) str_int
              "http://localhost:8983/solr/ms-marco" (fun _ => [1; 2]%Z)
              (fun _ => inr (JObj decoded)) (fun _ _ => inl TypeError)
              (knn_query_data Z str_int 3 [1; 2]%Z))
    as (_ & _ & _ & _ & Hmissing & _).
  apply (Hmissing decoded); [reflexivity | discriminate | reflexivity].
Defined.

End TesterFacts.


(** ** More on indexing *)

Module IndexingMore.
Import Py DocumentIndexing Backends IndexingFacts.

Lemma str_nat_inj (n m : nat) : str_nat n = str_nat m -> n = m.
Proof.
  unfold str_nat. intros Heq.
  apply DecimalNat.Unsigned.to_uint_inj.
  assert (Some (Nat.to_uint n) = Some (Nat.to_uint m)) as Hsome
      by (rewrite <- !NilEmpty.usu; now rewrite Heq).
  now inversion Hsome.
Qed.

(** Every entry of [entries_from] carries the number of its line pair, the
    stripped document of that pair and the decoded vector of that pair. *)
Lemma entries_from_aligned (pairs : list (string * string)) :
  forall index entry,
    In entry (entries_from index pairs) ->
    exists i document vector_string,
      nth_error pairs i = Some (document, vector_string) /\
      id entry = str_nat (index + i) /\
      text entry = strip document /\
      parse_vector vector_string = inr (vector entry).
Proof.
  induction pairs as [|[document vector_string] rest IH]; intros index entry Hin.
  - destruct Hin.
  - simpl in Hin.
    destruct (parse_vector vector_string) as [e|v] eqn:Hv.
    + destruct (IH _ _ Hin) as (i & d & vs & Hnth & Hid & Htext & Hvec).
      exists (S i), d, vs. rewrite Nat.add_succ_r. auto.
    + destruct Hin as [<- | Hin].
      * exists 0, document, vector_string. rewrite Nat.add_0_r. auto.
      * destruct (IH _ _ Hin) as (i & d & vs & Hnth & Hid & Htext & Hvec).
        exists (S i), d, vs. rewrite Nat.add_succ_r. auto.
Qed.

Lemma entries_from_ids_above (pairs : list (string * string)) :
  forall index entry,
    In entry (entries_from index pairs) ->
    exists i, index <= i /\ id entry = str_nat i.
Proof.
  intros index entry Hin.
  destruct (entries_from_aligned pairs index entry Hin)
    as (i & _ & _ & _ & Hid & _).
  exists (index + i). split; [lia | exact Hid].
Qed.

Lemma entries_from_ids_NoDup (pairs : list (string * string)) :
  forall index, NoDup (map id (entries_from index pairs)).
Proof.
  induction pairs as [|[document vector_string] rest IH]; intros index; simpl.
  - constructor.
  - destruct (parse_vector vector_string) as [e|v]; [apply IH |].
    simpl. constructor; [| apply IH].
    intros Hin. apply in_map_iff in Hin as (entry & Hid & Hin).
    destruct (entries_from_ids_above rest (S index) entry Hin) as (i & Hle & Hi).
    rewrite Hi in Hid. apply str_nat_inj in Hid. lia.
Qed.

Lemma nth_error_combine (A C : Type) (xs : list A) (ys : list C) :
  forall i x y,
    nth_error (combine xs ys) i = Some (x, y) ->
    nth_error xs i = Some x /\ nth_error ys i = Some y.
Proof.
  revert ys. induction xs as [|a xs IH]; intros [|b ys] [|i] x y H;
    simpl in *; try discriminate.
  - inversion H; subst; auto.
  - apply IH; exact H.
Qed.

(** X1.  Against a backend that accepts every batch, a run returns, the
    batches it sent, put end to end, are exactly the entries of the
    well-formed line pairs in input order (none lost, none sent twice), and no
    call carried an empty batch. *)
Theorem every_entry_is_sent_once_in_order
        (documents_file vectors_file : list string) :
  exists calls evs,
    index_documents [] documents_file vectors_file = (Returned calls, evs) /\
    concat calls = entries_from 0 (combine documents_file vectors_file) /\
    Forall (fun batch => batch <> []) calls.
Proof.
  destruct (index_loop_recorder (combine documents_file vectors_file) [] [] 0)
    as (calls & evs & Hrun & Hcat & _ & Hne).
  exists calls, evs. split; [exact Hrun |]. split; [exact Hcat |].
  apply Hne. constructor.
Qed.

(** X2.  Against a backend that accepts every batch, the ids of the
    entries a run sends are pairwise distinct, and every line pair is
    accounted for: the number of entries sent plus the number of records
    reported as skipped is the length of the shorter file. *)
Theorem sent_ids_are_distinct_and_pairs_accounted
        (documents_file vectors_file : list string) :
  exists calls evs,
    index_documents (H := recorder) [] documents_file vectors_file
    = (Returned calls, evs) /\
    NoDup (map id (concat calls)) /\
    length (concat calls) + skipped evs
    = Nat.min (length documents_file) (length vectors_file).
Proof.
  destruct (index_loop_recorder (combine documents_file vectors_file) [] [] 0)
    as (calls & evs & Hrun & Hcat & Hlen & _).
  exists calls, evs. split; [exact Hrun |]. simpl in Hcat. rewrite Hcat.
  split; [apply entries_from_ids_NoDup |].
  now rewrite Hlen, length_combine.
Qed.

(** X3.  Document and vector are never mismatched: every entry sent has, as
    id, the number of a line i present in both files and, as text and
    vector, the stripped line i of the documents file and the decoded
    line i of the vectors file. *)
Theorem sent_entries_are_aligned
        (documents_file vectors_file : list string) :
  exists calls evs,
    index_documents [] documents_file vectors_file = (Returned calls, evs) /\
    forall entry,
      In entry (concat calls) ->
      exists i document vector_string,
        nth_error documents_file i = Some document /\
        nth_error vectors_file i = Some vector_string /\
        id entry = str_nat i /\
        text entry = strip document /\
        parse_vector vector_string = inr (vector entry).
Proof.
  destruct (index_loop_recorder (combine documents_file vectors_file) [] [] 0)
    as (calls & evs & Hrun & Hcat & _ & _).
  exists calls, evs. split; [exact Hrun |].
  intros entry Hin. simpl in Hcat. rewrite Hcat in Hin.
  destruct (entries_from_aligned _ _ _ Hin) as (i & d & vs & Hnth & Hid & Ht & Hv).
  apply nth_error_combine in Hnth as [Hd Hvs].
  exists i, d, vs. auto.
Qed.

Lemma succ_mod_batch (k : nat) :
  (S k) mod BATCH_SIZE <> 0 -> (S k) mod BATCH_SIZE = k mod BATCH_SIZE + 1.
Proof.
  unfold BATCH_SIZE. intros Hne.
  pose proof (Nat.div_mod_eq k 100) as Hk.
  pose proof (Nat.mod_upper_bound k 100 ltac:(lia)) as Hr.
  destruct (Nat.eq_dec (k mod 100 + 1) 100) as [Hfull | Hroom].
  - exfalso. apply Hne. symmetry.
    apply (Nat.mod_unique (S k) 100 (S (k / 100)) 0); lia.
  - symmetry. apply (Nat.mod_unique (S k) 100 (k / 100)); lia.
Qed.

Lemma flush_due_true (index : nat) :
  flush_due index = true -> index mod BATCH_SIZE = 0 /\ index <> 0.
Proof.
  unfold flush_due. intros H. apply andb_prop in H as [Hm Hz].
  apply Nat.eqb_eq in Hm. apply negb_true_iff, Nat.eqb_neq in Hz. auto.
Qed.

Lemma flush_due_false (index : nat) :
  flush_due index = false -> index = 0 \/ index mod BATCH_SIZE <> 0.
Proof.
  unfold flush_due. intros H. apply andb_false_iff in H as [Hm | Hz].
  - right. now apply Nat.eqb_neq.
  - left. now apply negb_false_iff, Nat.eqb_eq in Hz.
Qed.

(** The most the buffer can hold when the loop reaches [index], if every
    line so far was well formed. *)
Lemma index_loop_batch_bound (pairs : list (string * string)) :
  forall (calls : list (list IndexEntry)) (documents : list IndexEntry)
         (index : nat),
    Forall (fun p => parses (snd p)) pairs ->
    length documents <= buffer_bound index ->
    Forall (fun batch => length batch <= BATCH_SIZE + 1) calls ->
    exists calls' evs,
      index_loop calls documents index pairs = (Returned calls', evs) /\
      Forall (fun batch => length batch <= BATCH_SIZE + 1) calls'.
Proof.
  induction pairs as [|[document vector_string] rest IH];
    intros calls documents index Hall Hbuf Hcalls.
  - assert (buffer_bound index <= BATCH_SIZE) as Hmax.
    { destruct index as [|k]; cbn [buffer_bound]; [lia |].
      pose proof (Nat.mod_upper_bound k BATCH_SIZE ltac:(discriminate)). lia. }
    destruct documents as [|d ds].
    + exists calls, [IndexingFinished]. split; [reflexivity | exact Hcalls].
    + exists (calls ++ [d :: ds])%list,
        [IndexedRemaining (length (d :: ds)); IndexingFinished].
      split; [reflexivity |]. apply Forall_app. split; [exact Hcalls |].
      constructor; [lia | constructor].
  - inversion Hall as [|p ps [vector Hparse] Hrest]; subst. simpl in Hparse.
    cbn [index_loop]. rewrite Hparse.
    set (doc := mkEntry (str_nat index) (strip document) vector).
    destruct (flush_due index) eqn:Hdue.
    + apply flush_due_true in Hdue as [Hmod Hnz].
      destruct index as [|k]; [now elim Hnz |].
      destruct (IH (calls ++ [documents ++ [doc]])%list [] (S (S k)) Hrest)
        as (calls' & evs & Hrun & Hbound).
      * cbn [length]. lia.
      * apply Forall_app. split; [exact Hcalls |].
        constructor; [| constructor].
        rewrite length_app. cbn [length buffer_bound] in *.
        pose proof (Nat.mod_upper_bound k BATCH_SIZE ltac:(discriminate)). lia.
      * exists calls', (Indexed (S k) :: evs).
        cbn [add recorder]. rewrite Hrun. split; [reflexivity | exact Hbound].
    + apply flush_due_false in Hdue.
      destruct (IH calls (documents ++ [doc])%list (S index) Hrest)
        as (calls' & evs & Hrun & Hbound).
      * rewrite length_app. cbn [length buffer_bound].
        destruct Hdue as [-> | Hmod]; [cbn [buffer_bound] in *; lia |].
        destruct index as [|k]; [cbn [buffer_bound] in *; lia |].
        rewrite (succ_mod_batch k Hmod). cbn [buffer_bound] in Hbuf. lia.
      * exact Hcalls.
      * exists calls', evs. split; [exact Hrun | exact Hbound].
Qed.

(** X4.  Against a backend that accepts every batch, when every vector
    line is well formed, no call of [add] carries more than
    [BATCH_SIZE + 1] entries. *)
Theorem batches_hold_at_most_BATCH_SIZE_plus_one
        (documents_file vectors_file : list string) :
  Forall parses vectors_file ->
  exists calls evs,
    index_documents (H := recorder) [] documents_file vectors_file
    = (Returned calls, evs) /\
    Forall (fun batch => length batch <= BATCH_SIZE + 1) calls.
Proof.
  intros Hall. unfold index_documents.
  apply index_loop_batch_bound.
  - clear -Hall. revert documents_file.
    induction Hall as [|v vs Hv _ IH]; intros [|d ds]; simpl; constructor; auto.
  - cbn [length]. lia.
  - constructor.
Qed.

Lemma batches_hold_at_most_BATCH_SIZE_plus_one_witness :
  exists calls evs,
    index_documents (H := recorder) [] (repeat "d" 230) (repeat "0.5,1e-3" 230)
    = (Returned calls, evs) /\
    Forall (fun batch => length batch <= BATCH_SIZE + 1) calls.
Proof.
  apply (batches_hold_at_most_BATCH_SIZE_plus_one
           (repeat "d" 230) (repeat "0.5,1e-3" 230)).
  apply Forall_forall. intros v Hin. apply repeat_spec in Hin. subst v.
  eexists. vm_compute. reflexivity.
Defined.

Section AnyBackend.
Context {B : Type} {client : IndexClient B}.

Lemma index_loop_all_malformed (pairs : list (string * string)) :
  forall (solr : B) (index : nat),
    Forall (fun p => malformed (snd p)) pairs ->
    exists evs,
      index_loop solr [] index pairs = (Returned solr, evs) /\
      skipped evs = length pairs.
Proof.
  induction pairs as [|[document vector_string] rest IH];
    intros solr index Hall.
  - exists [IndexingFinished]. split; reflexivity.
  - inversion Hall as [|p ps [e Hbad] Hrest]; subst. simpl in Hbad.
    destruct (IH solr (S index) Hrest) as (evs & Hrun & Hskip).
    exists (ErrorProcessing index e :: evs).
    cbn [index_loop]. rewrite Hbad, Hrun. unfold say, skipped in *.
    simpl. split; [reflexivity | now rewrite Hskip].
Qed.

(** X5.  When no vector line is well formed, whatever the backend, [add] is
    never called: the run returns normally with the backend as it was, and
    every line pair is reported as skipped. *)
Theorem all_malformed_sends_nothing
        (solr : B) (documents_file vectors_file : list string) :
  Forall malformed vectors_file ->
  exists evs,
    index_documents solr documents_file vectors_file = (Returned solr, evs) /\
    skipped evs = Nat.min (length documents_file) (length vectors_file).
Proof.
  intros Hall. unfold index_documents.
  rewrite <- length_combine. apply index_loop_all_malformed.
  clear -Hall. revert documents_file.
  induction Hall as [|v vs Hv _ IH]; intros [|d ds]; simpl; constructor; auto.
Qed.

End AnyBackend.

Lemma all_malformed_sends_nothing_witness :
  exists evs,
    index_documents (H := refusing TypeError) []
                    ["a"; "b"; "c"] ["x"; "1.0,"; "1..2"]
    = (Returned [], evs) /\
    skipped evs = Nat.min 3 3.
Proof.
  apply (all_malformed_sends_nothing (client := refusing TypeError) []
           ["a"; "b"; "c"] ["x"; "1.0,"; "1..2"]).
  repeat constructor; eexists; vm_compute; reflexivity.
Defined.

Lemma index_loop_refused (e : exn) (pairs : list (string * string)) :
  is_ValueError e = false ->
  forall (calls : list (list IndexEntry)) (documents : list IndexEntry)
         (index : nat),
    (documents ++ entries_from index pairs)%list <> [] ->
    exists batch rest evs,
      index_loop (H := refusing e) calls documents index pairs
      = (Raised e (calls ++ [batch])%list, evs) /\
      (batch ++ rest = documents ++ entries_from index pairs)%list /\
      batch <> [] /\
      skipped evs = length evs.
Proof.
  intros He.
  induction pairs as [|[document vector_string] rest IH];
    intros calls documents index Hsome.
  - simpl in Hsome. rewrite app_nil_r in Hsome.
    destruct documents as [|d ds]; [now elim Hsome |].
    exists (d :: ds), [], []. simpl.
    split; [reflexivity | split; [reflexivity | split; [discriminate | reflexivity]]].
  - cbn [index_loop entries_from] in *.
    destruct (parse_vector vector_string) as [bad|vector].
    + destruct (IH calls documents (S index) Hsome)
        as (batch & more & evs & Hrun & Hcat & Hne & Hskip).
      exists batch, more, (ErrorProcessing index bad :: evs).
      rewrite Hrun. unfold say, skipped in *. simpl.
      split; [reflexivity | split; [exact Hcat | split; [exact Hne | lia]]].
    + set (doc := mkEntry (str_nat index) (strip document) vector) in *.
      destruct (flush_due index).
      * exists (documents ++ [doc])%list, (entries_from (S index) rest), [].
        cbn [add refusing]. rewrite He.
        split; [reflexivity |]. split; [now rewrite <- app_assoc |].
        split; [destruct documents; discriminate | reflexivity].
      * destruct (IH calls (documents ++ [doc])%list (S index))
          as (batch & more & evs & Hrun & Hcat & Hne & Hskip).
        { destruct documents; discriminate. }
        exists batch, more, evs. rewrite Hrun.
        split; [reflexivity |]. split; [now rewrite Hcat, <- app_assoc |].
        split; [exact Hne | exact Hskip].
Qed.



Lemma index_loop_ValueError_kept (m : string) (pairs : list (string * string)) :
  forall (calls : list (list IndexEntry)) (documents : list IndexEntry)
         (index : nat),
    (documents ++ entries_from index pairs)%list <> [] ->
    exists earlier evs,
      index_loop (H := refusing (ValueError m)) calls documents index pairs
      = (Raised (ValueError m)
                (calls ++ earlier ++ [documents ++ entries_from index pairs])%list,
         evs).
Proof.
  induction pairs as [|[document vector_string] rest IH];
    intros calls documents index Hsome.
  - simpl in Hsome. rewrite app_nil_r in Hsome.
    destruct documents as [|d ds]; [now elim Hsome |].
    exists [], []. simpl. now rewrite app_nil_r.
  - cbn [index_loop entries_from] in *.
    destruct (parse_vector vector_string) as [bad|vector].
    + destruct (IH calls documents (S index) Hsome) as (earlier & evs & Hrun).
      exists earlier, (ErrorProcessing index bad :: evs).
      rewrite Hrun. reflexivity.
    + set (doc := mkEntry (str_nat index) (strip document) vector) in *.
      assert ((documents ++ [doc]) ++ entries_from (S index) rest
              = documents ++ doc :: entries_from (S index) rest)%list as Hassoc
          by now rewrite <- app_assoc.
      destruct (flush_due index).
      * destruct (IH (calls ++ [documents ++ [doc]])%list
                     (documents ++ [doc])%list (S index))
          as (earlier & evs & Hrun).
        { destruct documents; discriminate. }
        exists ((documents ++ [doc]) :: earlier)%list,
          (ErrorProcessing index (ValueError m) :: evs).
        cbn [add refusing is_ValueError]. rewrite Hrun, Hassoc.
        unfold say. cbn [fst snd]. now rewrite <- app_assoc.
      * destruct (IH calls (documents ++ [doc])%list (S index))
          as (earlier & evs & Hrun).
        { destruct documents; discriminate. }
        exists earlier, evs. now rewrite Hrun, Hassoc.
Qed.



Lemma split_length (sep : ascii) (s : string) :
  length (split sep s) = S (count_char sep s).
Proof.
  induction s as [|c r IH]; [reflexivity |].
  cbn [split count_char]. destruct (Ascii.eqb c sep).
  - simpl. now rewrite IH.
  - destruct (split sep r); simpl in *; [discriminate | exact IH].
Qed.

Lemma floats_length (tokens : list string) :
  forall vector, floats tokens = inr vector -> length vector = length tokens.
Proof.
  induction tokens as [|w ws IH]; intros vector Hv; simpl in Hv.
  - now inversion Hv.
  - destruct (float w); [discriminate |].
    destruct (floats ws) as [|xs]; [discriminate |].
    inversion Hv; subst. simpl. now rewrite (IH xs eq_refl).
Qed.

(** X8.  A vector line that decodes gives one component per
    comma-separated field of the stripped line: the dimension is the number
    of commas plus one, so it is never zero, and nothing compares it with
    the dimension of other lines. *)
Theorem decoded_dimension_is_commas_plus_one
        (vector_string : string) (vector : list pyfloat) :
  parse_vector vector_string = inr vector ->
  length vector = S (count_char "," (strip vector_string)).
Proof.
  unfold parse_vector. intros Hv.
  now rewrite (floats_length _ _ Hv), split_length.
Qed.

Lemma decoded_dimension_is_commas_plus_one_witness :
  length [FDec false 1 0; FDec false 25 (-1); FNan]
  = S (count_char "," (strip " 1,2.5,nan ")).
Proof.
  apply (decoded_dimension_is_commas_plus_one " 1,2.5,nan ").
  vm_compute. reflexivity.
Defined.

End IndexingMore.


(** ** More on vector generation *)

Module GenerationMore.
Import Py VectorGeneration Batches StringFacts GenerationFacts.

Lemma batches_cons (d : string) (ds : list string) :
  batches (d :: ds) = (d :: firstn 99 ds) :: batches (skipn 99 ds).
Proof. now simp batches. Qed.

Lemma batches_shape (documents_file : list string) :
  concat (batches documents_file) = documents_file /\
  Forall (fun batch => 1 <= length batch <= BATCH_SIZE) (batches documents_file) /\
  length (batches documents_file)
  = (length documents_file + (BATCH_SIZE - 1)) / BATCH_SIZE.
Proof.
  induction documents_file as [documents_file IH]
    using (induction_ltof1 _ (@length string)).
  destruct documents_file as [|d ds]; [repeat split; constructor |].
  rewrite batches_cons.
  destruct (IH (skipn 99 ds)) as (Hcat & Hsize & Hcount).
  { unfold ltof. rewrite length_skipn. simpl. lia. }
  split; [| split].
  - cbn [concat]. rewrite Hcat. apply (firstn_skipn 100 (d :: ds)).
  - constructor; [| exact Hsize].
    cbn [length]. rewrite length_firstn. unfold BATCH_SIZE. lia.
  - cbn [length]. rewrite Hcount, length_skipn. unfold BATCH_SIZE.
    change (100 - 1) with 99.
    destruct (le_lt_dec (length ds) 99) as [Hshort | Hlong].
    + replace (length ds - 99) with 0 by lia.
      change (0 + 99) with 99. rewrite (Nat.div_small 99 100) by lia.
      apply (Nat.div_unique (S (length ds) + 99) 100 1 (length ds)); lia.
    + replace (S (length ds) + 99) with ((length ds - 99 + 99) + 1 * 100) by lia.
      rewrite Nat.div_add by lia. lia.
Qed.

Section AnyModel.
Variable npfloat : Type.
Variable str_np : npfloat -> string.
Variable model_encode : list string -> list (list npfloat).

Lemma batch_loop_by_batches (documents_file : list string) :
  (forall batch, In batch (batches documents_file) -> model_encode batch <> []) ->
  forall processed out,
    let r := batch_loop npfloat str_np model_encode documents_file processed out in
    raised r = None /\
    written r
    = out ++ unlines (map (vector_line npfloat str_np)
                          (flat_map model_encode (batches documents_file))) /\
    length (filter is_progress (printed r)) = length (batches documents_file).
Proof.
  induction documents_file as [documents_file IH]
    using (induction_ltof1 _ (@length string)).
  intros Hmodel processed out.
  destruct documents_file as [|d ds].
  - simp batch_loop. cbn. now rewrite append_nil_r.
  - rewrite batches_cons in *. simp batch_loop. unfold encode.
    change (firstn BATCH_SIZE (d :: ds)) with (d :: firstn 99 ds).
    destruct (model_encode (d :: firstn 99 ds)) as [|v vs] eqn:Hvs.
    { exfalso. apply (Hmodel (d :: firstn 99 ds)); [now left | exact Hvs]. }
    cbn [batch_loop_unfold_clause_2].
    change (skipn BATCH_SIZE (d :: ds)) with (skipn 99 ds).
    destruct (IH (skipn 99 ds)) with
      (processed := S processed)
      (out := write_vectors npfloat str_np out (v :: vs))
      as (Hraised & Hwritten & Hcount).
    { unfold ltof. rewrite length_skipn. simpl. lia. }
    { intros batch Hin. apply Hmodel. now right. }
    cbn zeta in *. cbn [raised written printed].
    split; [exact Hraised |]. split.
    + rewrite Hwritten, write_vectors_unlines, append_assoc. f_equal.
      cbn [flat_map]. rewrite Hvs, map_app. now rewrite unlines_app.
    + unfold progress, INFO_UPDATE_FACTOR. rewrite Nat.mod_1_r.
      cbn [Nat.eqb Datatypes.app filter is_progress Datatypes.length].
      now rewrite Hcount.
Qed.

(** X9.  The input is cut into consecutive batches of [BATCH_SIZE] lines,
    the last one possibly shorter and none empty.  As long as the embedder
    returns at least one vector for every batch, generation ends without
    error, the embedder is asked once per batch (one progress report each),
    and the file holds one line per vector returned, batch after batch: the
    number of vectors returned for a batch is not compared with the number
    of documents in it. *)
Theorem generation_writes_what_the_model_returns (documents_file : list string) :
  (forall batch, In batch (batches documents_file) -> model_encode batch <> []) ->
  let r := batch_encode_to_vectors npfloat str_np model_encode documents_file in
  concat (batches documents_file) = documents_file /\
  Forall (fun batch => 1 <= length batch <= BATCH_SIZE) (batches documents_file) /\
  raised r = None /\
  written r
  = unlines (map (vector_line npfloat str_np)
                 (flat_map model_encode (batches documents_file))) /\
  length (filter is_progress (printed r))
  = (length documents_file + (BATCH_SIZE - 1)) / BATCH_SIZE.
Proof.
  intros Hmodel r.
  destruct (batch_loop_by_batches documents_file Hmodel 0 EmptyString)
    as (Hraised & Hwritten & Hcount).
  destruct (batches_shape documents_file) as (Hcat & Hsize & Hlen).
  split; [exact Hcat |]. split; [exact Hsize |].
  split; [exact Hraised |]. split; [exact Hwritten |].
  fold (batch_encode_to_vectors npfloat str_np model_encode documents_file) in Hcount.
  fold r in Hcount. now rewrite Hcount.
Qed.

Lemma batch_loop_stops (pre : list (list string)) :
  forall (documents_file bad : list string) (post : list (list string))
         (processed : nat) (out : string),
    batches documents_file = (pre ++ bad :: post)%list ->
    (forall batch, In batch pre -> model_encode batch <> []) ->
    model_encode bad = [] ->
    let r := batch_loop npfloat str_np model_encode documents_file processed out in
    raised r = Some IndexError /\
    written r
    = out ++ unlines (map (vector_line npfloat str_np)
                          (flat_map model_encode pre)).
Proof.
  induction pre as [|b pre IH];
    intros documents_file bad post processed out Hcut Hpre Hbad.
  - destruct documents_file as [|d ds].
    { simp batches in Hcut. discriminate. }
    rewrite batches_cons in Hcut. cbn [app] in Hcut.
    injection Hcut as Hfirst Hrest.
    assert (model_encode (d :: firstn 99 ds) = []) as Hnone
        by (rewrite <- Hbad; f_equal; exact Hfirst).
    simp batch_loop. unfold encode.
    change (firstn BATCH_SIZE (d :: ds)) with (d :: firstn 99 ds).
    rewrite Hnone. cbn [batch_loop_unfold_clause_2 raised written].
    split; [reflexivity |]. cbn [flat_map map unlines].
    now rewrite append_nil_r.
  - destruct documents_file as [|d ds].
    { simp batches in Hcut. discriminate. }
    rewrite batches_cons in Hcut. rewrite <- app_comm_cons in Hcut.
    injection Hcut as Hfirst Hrest.
    assert (b = d :: firstn 99 ds) as Hb by (symmetry; exact Hfirst).
    assert (batches (skipn 99 ds) = (pre ++ bad :: post)%list) as Htail
        by exact Hrest.
    clear Hfirst Hrest. subst b.
    simp batch_loop. unfold encode.
    change (firstn BATCH_SIZE (d :: ds)) with (d :: firstn 99 ds).
    destruct (model_encode (d :: firstn 99 ds)) as [|v vs] eqn:Hvs.
    { exfalso. apply (Hpre (d :: firstn 99 ds)); [now left | exact Hvs]. }
    cbn [batch_loop_unfold_clause_2].
    change (skipn BATCH_SIZE (d :: ds)) with (skipn 99 ds).
    destruct (IH (skipn 99 ds) bad post (S processed)
                 (write_vectors npfloat str_np out (v :: vs)) Htail)
      as (Hraised & Hwritten).
    { intros batch Hin. apply Hpre. now right. }
    { exact Hbad. }
    cbn zeta in *. cbn [raised written].
    split; [exact Hraised |].
    rewrite Hwritten, write_vectors_unlines, append_assoc. f_equal.
    cbn [flat_map]. rewrite Hvs, map_app. now rewrite unlines_app.
Qed.

(** X10.  When the embedder returns no vector for a batch, [encode] raises
    [IndexError] on [embeddings[0]] and the run stops there: the output file
    is left with the lines of the batches before it, and nothing more. *)
Theorem empty_embedding_result_raises_IndexError
        (documents_file bad : list string) (pre post : list (list string)) :
  batches documents_file = (pre ++ bad :: post)%list ->
  (forall batch, In batch pre -> model_encode batch <> []) ->
  model_encode bad = [] ->
  let r := batch_encode_to_vectors npfloat str_np model_encode documents_file in
  raised r = Some IndexError /\
  written r
  = unlines (map (vector_line npfloat str_np) (flat_map model_encode pre)).
Proof.
  intros Hcut Hpre Hbad.
  apply (batch_loop_stops pre documents_file bad post 0 EmptyString Hcut Hpre Hbad).
Qed.

End AnyModel.

Lemma generation_writes_what_the_model_returns_witness :
  let str_np := fun b : bool => if b then "1.0" else "0.0" in
  let model_encode := fun batch : list string => [[true]; [false; true]] in
  let r := batch_encode_to_vectors bool str_np model_encode ["a"; "b"; "c"] in
  concat (batches ["a"; "b"; "c"]) = ["a"; "b"; "c"] /\
  Forall (fun batch => 1 <= length batch <= BATCH_SIZE) (batches ["a"; "b"; "c"]) /\
  raised r = None /\
  written r
  = unlines (map (vector_line bool str_np)
                 (flat_map model_encode (batches ["a"; "b"; "c"]))) /\
  length (filter is_progress (printed r)) = (3 + (BATCH_SIZE - 1)) / BATCH_SIZE.
Proof.
  intros str_np model_encode.
  apply (generation_writes_what_the_model_returns bool str_np model_encode
           ["a"; "b"; "c"]).
  intros batch _. discriminate.
Defined.

Lemma empty_embedding_result_raises_IndexError_witness :
  let str_np := fun b : bool => if b then "1.0" else "0.0" in
  let model_encode :=
    fun batch : list string =>
      if (length batch =? 100)%nat then map (fun _ => [true]) batch else [] in
  let documents_file := repeat "d" 130 in
  let r := batch_encode_to_vectors bool str_np model_encode documents_file in
  raised r = Some IndexError /\
  written r
  = unlines (map (vector_line bool str_np)
                 (flat_map model_encode [repeat "d" 100])).
Proof.
  intros str_np model_encode documents_file.
  apply (empty_embedding_result_raises_IndexError bool str_np model_encode
           documents_file (repeat "d" 30) [repeat "d" 100] []).
  - vm_compute. reflexivity.
  - intros batch [<- | []]. vm_compute. discriminate.
  - reflexivity.
Defined.

End GenerationMore.


(** ** From sample data to the index *)

Module PipelineFacts.
Import Py DocumentIndexing VectorGeneration SampleData Batches Backends.
Import StringFacts IndexingFacts GenerationFacts IndexingMore.

Lemma plain_solid (s : string) : plain s = true -> solid s = true.
Proof.
  induction s as [|c r IH]; [reflexivity |]. cbn [plain solid]. intros H.
  apply andb_prop in H as [H Hr]. apply andb_prop in H as [Hc _].
  now rewrite Hc, (IH Hr).
Qed.

Lemma solid_one_line (s : string) : solid s = true -> one_line s = true.
Proof.
  induction s as [|c r IH]; [reflexivity |]. cbn [solid one_line]. intros H.
  apply andb_prop in H as [Hc Hr]. rewrite (IH Hr), andb_true_r.
  destruct (Ascii.eqb c (ascii_of_nat 10)) eqn:Hlf.
  { apply Ascii.eqb_eq in Hlf. subst c. discriminate. }
  destruct (Ascii.eqb c (ascii_of_nat 13)) eqn:Hcr; [| reflexivity].
  apply Ascii.eqb_eq in Hcr. subst c. discriminate.
Qed.

Lemma solid_app (a b : string) : solid (a ++ b) = solid a && solid b.
Proof.
  induction a as [|c a IH]; [reflexivity |]. cbn [append solid].
  now rewrite IH, andb_assoc.
Qed.

Lemma solid_join (tokens : list string) :
  Forall (fun t => plain t = true) tokens -> solid (join "," tokens) = true.
Proof.
  induction 1 as [|t ts Ht _ IH]; [reflexivity |].
  rewrite join_cons. destruct ts as [|u us]; [now apply plain_solid |].
  now rewrite !solid_app, (plain_solid _ Ht), IH.
Qed.

Lemma rstrip_solid (s : string) : solid s = true -> rstrip_with isspace s = s.
Proof.
  induction s as [|c r IH]; [reflexivity |]. cbn [solid rstrip_with]. intros H.
  apply andb_prop in H as [Hc Hr]. apply negb_true_iff in Hc.
  now rewrite Hc, (IH Hr).
Qed.

Lemma lstrip_solid (s : string) : solid s = true -> lstrip_with isspace s = s.
Proof.
  destruct s as [|c r]; [reflexivity |]. cbn [solid lstrip_with]. intros H.
  apply andb_prop in H as [Hc _]. apply negb_true_iff in Hc. now rewrite Hc.
Qed.

Lemma rstrip_app_newline (s : string) :
  rstrip_with isspace (s ++ newline) = rstrip_with isspace s.
Proof.
  induction s as [|c r IH]; [reflexivity |].
  cbn [append rstrip_with]. now rewrite IH.
Qed.

Lemma strip_app_newline (s : string) : strip (s ++ newline) = strip s.
Proof.
  unfold strip, strip_with. induction s as [|c r IH]; [reflexivity |].
  cbn [append lstrip_with]. destruct (isspace c); [exact IH |].
  apply (rstrip_app_newline (String c r)).
Qed.

Lemma strip_solid (s : string) : solid s = true -> strip s = s.
Proof.
  intros H. unfold strip, strip_with.
  now rewrite (lstrip_solid _ H), (rstrip_solid _ H).
Qed.

Lemma split_plain (t : string) : plain t = true -> split "," t = [t].
Proof.
  induction t as [|c r IH]; [reflexivity |]. cbn [plain split]. intros H.
  apply andb_prop in H as [H Hr]. apply andb_prop in H as [_ Hc].
  apply negb_true_iff in Hc. now rewrite Hc, (IH Hr).
Qed.

Lemma split_plain_comma (t rest : string) :
  plain t = true -> split "," (t ++ "," ++ rest) = t :: split "," rest.
Proof.
  induction t as [|c r IH]; [reflexivity |]. cbn [plain]. intros H.
  apply andb_prop in H as [H Hr]. apply andb_prop in H as [_ Hc].
  apply negb_true_iff in Hc.
  change (String c r ++ "," ++ rest) with (String c (r ++ "," ++ rest)).
  cbn [split]. now rewrite Hc, (IH Hr).
Qed.

Lemma split_join_plain (tokens : list string) :
  Forall (fun t => plain t = true) tokens ->
  tokens <> [] ->
  split "," (join "," tokens) = tokens.
Proof.
  induction 1 as [|t ts Ht Hts IH]; intros Hne; [now elim Hne |].
  rewrite join_cons. destruct ts as [|u us]; [now apply split_plain |].
  rewrite (split_plain_comma _ _ Ht), IH; [reflexivity | discriminate].
Qed.

Lemma save_loop_unlines (docs : list string) (out : string) :
  fold_left (fun out doc => out ++ (doc ++ newline)) docs out
  = out ++ unlines docs.
Proof.
  revert out. induction docs as [|d ds IH]; intros out; cbn [fold_left unlines].
  - now rewrite append_nil_r.
  - now rewrite IH, !append_assoc.
Qed.

Lemma save_documents_written (makedirs : string -> option exn)
      (docs : list string) (filename content : string) (count : nat) :
  save_documents makedirs docs filename = inr (content, count) ->
  content = unlines docs /\ count = length docs.
Proof.
  unfold save_documents. destruct (makedirs (Files.dirname filename));
    [discriminate |].
  intros H. injection H as <- <-. now rewrite save_loop_unlines.
Qed.

Lemma line_ends_newline (d : string) : 1 <= line_ends false (d ++ newline).
Proof.
  induction d as [|c r IH]; [cbn; lia |].
  cbn [append line_ends].
  destruct (Ascii.eqb c (ascii_of_nat 10)); [lia |].
  destruct (Ascii.eqb c (ascii_of_nat 13)); [lia | exact IH].
Qed.

Lemma line_ends_one_line (d : string) :
  one_line d = true -> line_ends false (d ++ newline) = 1.
Proof.
  induction d as [|c r IH]; [reflexivity |].
  cbn [append line_ends one_line]. intros H.
  apply andb_prop in H as [Hc Hr]. apply andb_prop in Hc as [Hlf Hcr].
  apply negb_true_iff in Hlf, Hcr. rewrite Hlf, Hcr. exact (IH Hr).
Qed.

Lemma read_lines_count (a rest : string) :
  forall after_cr,
    length (read_lines after_cr (a ++ newline ++ rest))
    = line_ends after_cr (a ++ newline) + length (read_lines false rest).
Proof.
  induction a as [|c r IH]; intros after_cr.
  - destruct after_cr; reflexivity.
  - change (String c r ++ newline ++ rest) with (String c (r ++ newline ++ rest)).
    change (String c r ++ newline) with (String c (r ++ newline)).
    cbn [read_lines line_ends].
    destruct (Ascii.eqb c (ascii_of_nat 10)).
    { destruct after_cr; cbn [length]; rewrite IH; lia. }
    destruct (Ascii.eqb c (ascii_of_nat 13)).
    { cbn [length]. rewrite IH. lia. }
    pose proof (IH false) as Hcount. pose proof (line_ends_newline r) as Hone.
    destruct (read_lines false (r ++ newline ++ rest)) as [|l ls];
      cbn [length] in *; lia.
Qed.

Lemma readlines_unlines_count (docs : list string) :
  length (readlines (unlines docs))
  = list_sum (map (fun doc => line_ends false (doc ++ newline)) docs).
Proof.
  unfold readlines. induction docs as [|d ds IH]; [reflexivity |].
  cbn [unlines map list_sum fold_right]. rewrite read_lines_count, IH.
  reflexivity.
Qed.

(** X11.  [save_documents] raises what [os.makedirs] raises on the directory
    of the file name, before writing anything.  Otherwise the count it
    prints is the number of documents, while the file it wrote reads back
    with one line per line end (line feed, carriage return, or both
    together) of each document followed by its line feed: at least as many
    lines as documents, and more as soon as a document contains a line
    end. *)
Theorem saved_file_line_count (makedirs : string -> option exn)
        (docs : list string) (filename : string) :
  (forall e,
      makedirs (Files.dirname filename) = Some e ->
      save_documents makedirs docs filename = inl e) /\
  (forall content count,
      save_documents makedirs docs filename = inr (content, count) ->
      count = length docs /\
      length (readlines content)
      = list_sum (map (fun doc => line_ends false (doc ++ newline)) docs) /\
      length docs <= length (readlines content)).
Proof.
  split.
  - intros e He. unfold save_documents. now rewrite He.
  - intros content count Hsaved.
    apply save_documents_written in Hsaved as [-> ->].
    split; [reflexivity |]. rewrite readlines_unlines_count.
    split; [reflexivity |].
    induction docs as [|d ds IH]; [apply Nat.le_refl |].
    cbn [map list_sum fold_right length].
    pose proof (line_ends_newline d). unfold list_sum in IH. lia.
Qed.

Lemma saved_file_line_count_witness :
  let makedirs := fun path : string =>
                    if is_empty path
                    then Some (OtherError "FileNotFoundError") else None in
  save_documents makedirs ["a"; "b"] "sample_documents.tsv"
  = inl (OtherError "FileNotFoundError").
Proof.
  intros makedirs.
  apply (proj1 (saved_file_line_count makedirs ["a"; "b"] "sample_documents.tsv")).
  reflexivity.
Defined.

(** X12.  When [save_documents] returns and no document contains a line
    feed or a carriage return, the file it wrote reads back, line by line,
    as the documents in order, each with its line feed. *)
Theorem saved_file_reads_back (makedirs : string -> option exn)
        (docs : list string) (filename content : string) (count : nat) :
  save_documents makedirs docs filename = inr (content, count) ->
  Forall (fun doc => one_line doc = true) docs ->
  readlines content = map (fun doc => doc ++ newline) docs.
Proof.
  intros Hsaved Hall.
  apply save_documents_written in Hsaved as [-> _].
  now apply readlines_unlines.
Qed.

Lemma saved_file_reads_back_witness :
  readlines (unlines create_sample_documents)
  = map (fun doc => doc ++ newline) create_sample_documents.
Proof.
  apply (saved_file_reads_back (fun _ => None) create_sample_documents
           "data/sample_documents.tsv" (unlines create_sample_documents) 20).
  - vm_compute. reflexivity.
  - repeat constructor.
Defined.

Section Embedder.
Variable npfloat : Type.
Variable str_np : npfloat -> string.
Variable model_encode : list string -> list (list npfloat).
Variable embed : string -> list npfloat.

Hypothesis str_np_plain : forall x, plain (str_np x) = true.

Lemma generated_line_tokens (v : list npfloat) :
  v <> [] ->
  split "," (strip (vector_line npfloat str_np v ++ newline)) = map str_np v.
Proof.
  intros Hne.
  assert (Forall (fun t => plain t = true) (map str_np v)) as Hplain
      by (apply Forall_map, Forall_forall; intros y _; apply str_np_plain).
  unfold vector_line.
  rewrite strip_app_newline, (strip_solid _ (solid_join _ Hplain)).
  apply (split_join_plain _ Hplain).
  destruct v; [now elim Hne | discriminate].
Qed.

Lemma generated_line_parse (v : list npfloat) :
  parse_vector (vector_line npfloat str_np v ++ newline)
  = match v with
    | [] => inl (ValueError EmptyString)
    | _ :: _ => floats (map str_np v)
    end.
Proof.
  destruct v as [|x xs]; [reflexivity |].
  unfold parse_vector. now rewrite generated_line_tokens.
Qed.

(** X13.  The line that vector generation writes for a vector with at
    least one component is cut by indexing into exactly the texts of the
    components, in order, and so decoded component by component:
    [parse_vector] of the line is [float] applied to the text of each
    component in turn.  For a vector without component the line is blank and
    indexing refuses it. *)
Theorem generated_line_decodes_componentwise (v : list npfloat) :
  (v <> [] ->
   split "," (strip (vector_line npfloat str_np v ++ newline)) = map str_np v) /\
  parse_vector (vector_line npfloat str_np v ++ newline)
  = match v with
    | [] => inl (ValueError EmptyString)
    | _ :: _ => floats (map str_np v)
    end.
Proof.
  split; [apply generated_line_tokens |].
  destruct v as [|x xs]; [reflexivity |].
  unfold parse_vector. rewrite generated_line_tokens; [reflexivity | discriminate].
Qed.

Hypothesis model_encode_pointwise :
  forall documents, model_encode documents = map embed documents.
Hypothesis str_np_accepted : forall x, exists f, float (str_np x) = inr f.
Hypothesis embed_nonempty : forall document, embed document <> [].

Lemma floats_accepted (v : list npfloat) :
  exists xs, floats (map str_np v) = inr xs /\ length xs = length v.
Proof.
  induction v as [|x v [xs [Hxs Hlen]]]; [now exists [] |].
  destruct (str_np_accepted x) as [f Hf].
  exists (f :: xs). cbn [map floats]. rewrite Hf, Hxs.
  split; [reflexivity | simpl; now rewrite Hlen].
Qed.

Lemma entries_of_generated_lines (lines : list string) :
  forall index,
    let vectors_file :=
      map (fun l => line_of npfloat str_np embed l ++ newline) lines in
    let entries := entries_from index (combine lines vectors_file) in
    map id entries = map str_nat (seq index (length lines)) /\
    map text entries = map strip lines /\
    map (fun entry => length (vector entry)) entries
    = map (fun l => length (embed l)) lines.
Proof.
  induction lines as [|l ls IH]; intros index; [repeat split |].
  cbv zeta in *. cbn [map combine entries_from length seq].
  destruct (floats_accepted (embed l)) as (fs & Hfs & Hlen).
  assert (parse_vector (line_of npfloat str_np embed l ++ newline) = inr fs)
    as Hparse.
  { unfold line_of. rewrite generated_line_parse.
    destruct (embed l) eqn:Hl; [now elim (embed_nonempty l) | exact Hfs]. }
  rewrite Hparse. cbn [map id text vector].
  destruct (IH (S index)) as (Hid & Htext & Hdim).
  rewrite Hid, Htext, Hdim, Hlen. repeat split.
Qed.

(** X14.  The three scripts chained.  For documents without line feed or
    carriage return that [save_documents] saved, an embedder that returns one
    non-empty vector per text in order, and components whose text has no
    white space or comma and is accepted by [float]: generating the vectors
    file from the saved file and indexing the two files, against a backend
    that accepts every batch, sends one entry per document and skips none; entry i has id "i", the stripped document i as
    text, and a vector of the dimension of the embedding of line i (the
    embedding is taken from the line with its line feed, the text is
    stripped). *)
Theorem saved_generated_indexed (makedirs : string -> option exn)
        (docs : list string) (filename content : string) (count : nat) :
  save_documents makedirs docs filename = inr (content, count) ->
  Forall (fun doc => one_line doc = true) docs ->
  let documents_file := readlines content in
  let vectors_file :=
    readlines (written (batch_encode_to_vectors npfloat str_np model_encode
                                                documents_file)) in
  exists calls evs,
    index_documents (H := recorder) [] documents_file vectors_file
    = (Returned calls, evs) /\
    skipped evs = 0 /\
    map id (concat calls) = map str_nat (seq 0 (length docs)) /\
    map text (concat calls) = map strip docs /\
    map (fun entry => length (vector entry)) (concat calls)
    = map (fun doc => length (embed (doc ++ newline))) docs.
Proof.
  intros Hsaved Hdocs documents_file vectors_file.
  apply save_documents_written in Hsaved as [-> _].
  assert (documents_file = map (fun doc => doc ++ newline) docs) as Hfile.
  { unfold documents_file. now rewrite readlines_unlines. }
  assert (vectors_file
          = map (fun l => line_of npfloat str_np embed l ++ newline)
                documents_file) as Hvectors.
  { unfold vectors_file, batch_encode_to_vectors.
    destruct (batch_loop_written npfloat str_np model_encode embed
                model_encode_pointwise documents_file 0 EmptyString)
      as [_ Hwritten].
    rewrite Hwritten. cbn [append].
    rewrite readlines_unlines, map_map; [reflexivity |].
    apply Forall_map, Forall_forall. intros l _.
    apply solid_one_line, solid_join.
    apply Forall_map, Forall_forall. intros x _. apply str_np_plain. }
  destruct (index_loop_recorder (combine documents_file vectors_file) [] [] 0)
    as (calls & evs & Hrun & Hcat & Hlen & _).
  destruct (entries_of_generated_lines documents_file 0) as (Hid & Htext & Hdim).
  rewrite <- Hvectors in Hid, Htext, Hdim.
  simpl in Hcat. rewrite <- Hcat in Hid, Htext, Hdim, Hlen.
  exists calls, evs. split; [exact Hrun |].
  assert (length documents_file = length docs) as Hn
      by now rewrite Hfile, length_map.
  split; [| split; [| split]].
  - apply (f_equal (@length _)) in Hid.
    rewrite !length_map, length_seq in Hid.
    rewrite length_combine, Hvectors, length_map, Nat.min_id in Hlen. lia.
  - now rewrite Hid, Hn.
  - rewrite Htext, Hfile, map_map.
    apply map_ext. intros doc. apply strip_app_newline.
  - now rewrite Hdim, Hfile, map_map.
Qed.

End Embedder.

Lemma generated_line_decodes_componentwise_witness :
  let str_np := fun b : bool => if b then "1.0" else "0.0" in
  parse_vector (vector_line bool str_np [true; false; true] ++ newline)
  = floats (map str_np [true; false; true]).
Proof.
  intros str_np.
  apply (proj2 (generated_line_decodes_componentwise bool str_np
                  ltac:(intros []; reflexivity) [true; false; true])).
Defined.

Lemma saved_generated_indexed_witness :
  let str_np := fun b : bool => if b then "1.0" else "0.0" in
  let embed := fun l : string => [Nat.even (String.length l); true] in
  let docs := create_sample_documents in
  let documents_file := readlines (unlines docs) in
  let vectors_file :=
    readlines (written (batch_encode_to_vectors bool str_np (map embed)
                                                documents_file)) in
  exists calls evs,
    index_documents (H := recorder) [] documents_file vectors_file
    = (Returned calls, evs) /\
    skipped evs = 0 /\
    map id (concat calls) = map str_nat (seq 0 (length docs)) /\
    map text (concat calls) = map strip docs /\
    map (fun entry => length (vector entry)) (concat calls)
    = map (fun doc => length (embed (doc ++ newline))) docs.
Proof.
  intros str_np embed docs.
  apply (saved_generated_indexed bool str_np (map embed) embed
           ltac:(intros []; reflexivity) ltac:(reflexivity)
           ltac:(intros []; eexists; vm_compute; reflexivity)
           ltac:(discriminate)
           (fun _ => None) docs "data/sample_documents.tsv" (unlines docs) 20).
  - vm_compute. reflexivity.
  - repeat constructor.
Defined.

End PipelineFacts.


(** ** More on the query tests *)

Module SuiteFacts.
Import Py NeuralSearchTester TesterSuite TesterFacts.

Section Queries.
Variable pyfl : Type.
Variable float_truthy : pyfl -> bool.
Variable repr_float : pyfl -> string.
Variable solr_url : string.
Variable vectorize_query : string -> list pyfl.
Variable http : request pyfl -> exn + json pyfl.
Variable http_params : string -> list (string * string) -> exn + json pyfl.

Lemma show_docs_hits (docs : list (json pyfl))
      (hits : list (json pyfl * json pyfl * string)) :
  Forall2 shows docs hits ->
  forall i, show_docs pyfl i docs = (inr tt, hit_lines i hits).
Proof.
  induction 1 as [|doc [[id score] text] docs hits Hdoc _ IH]; intros i.
  - reflexivity.
  - destruct Hdoc as (Hid & Hscore & Hformat & Htext).
    cbn [show_docs]. unfold bind, lift. cbn [fst snd].
    rewrite Hid. cbn [fst snd]. rewrite Hscore. cbn [fst snd].
    rewrite Hformat. unfold tell. cbn [fst snd].
    rewrite Htext. cbn [fst snd slice_100 app].
    rewrite (IH (S i)). reflexivity.
Qed.

Lemma getitem_truthy (value item : json pyfl) (key : string) :
  getitem value key = inr item -> truthy pyfl float_truthy value = true.
Proof.
  destruct value as [| | | | | |fields]; try discriminate.
  destruct fields; [discriminate | reflexivity].
Qed.

(** X15.  When the backend answers a query with an object whose "response"
    has a "numFound" and a list "docs" of documents that each have an "id", a
    numeric "score" and a string "text", the query operation returns the
    decoded answer unchanged and prints the count, then two lines per
    document, numbered from 1 in the order of the list, the text cut to its
    first 100 characters. *)
Theorem well_formed_response_is_shown_and_returned
        (query_data decoded response num : json pyfl)
        (docs : list (json pyfl))
        (hits : list (json pyfl * json pyfl * string)) :
  http (mkRequest POST (solr_url ++ "/select?fl=id,text,score") (Some query_data))
  = inr decoded ->
  getitem decoded "response" = inr response ->
  getitem response "numFound" = inr num ->
  getitem response "docs" = inr (JArr docs) ->
  Forall2 shows docs hits ->
  execute pyfl float_truthy solr_url http query_data
  = (inr decoded, SayFound num :: hit_lines 1 hits).
Proof.
  intros Hreq Hresponse Hnum Hdocs Hshown. unfold execute.
  rewrite (make_request_decoded _ _ _ _ _ _ Hreq).
  unfold bind. cbn [fst snd]. rewrite (getitem_truthy _ _ _ Hresponse).
  unfold show_result, bind, lift, tell. cbn [fst snd].
  rewrite Hresponse. cbn [fst snd]. rewrite Hnum. cbn [fst snd].
  rewrite Hdocs. cbn [fst snd iterate].
  rewrite (show_docs_hits _ _ Hshown 1). cbn [fst snd app].
  now rewrite app_nil_r.
Qed.

(** X16.  [make_request] absorbs request exceptions only: any other
    exception raised while the request is made or its body decoded leaves
    the query operation, with nothing printed after the banner. *)
Theorem other_exceptions_leave_the_query (query_data : json pyfl) (e : exn) :
  http (mkRequest POST (solr_url ++ "/select?fl=id,text,score") (Some query_data))
  = inl e ->
  is_RequestException e = false ->
  execute pyfl float_truthy solr_url http query_data = (inl e, []).
Proof.
  intros Hreq He. unfold execute, make_request. cbv zeta.
  rewrite String.eqb_refl, Hreq, He. reflexivity.
Qed.

(** X17.  The re-ranking test absorbs every exception raised by its
    request, not only request exceptions: it prints the error and returns
    [None].  The printing of the result is outside its [try]: a non-empty
    JSON object without "response" makes it raise [KeyError]. *)
Theorem reranking_absorbs_every_request_error
        (initial_query rerank_query : string) (rerank_docs rerank_weight : Z) :
  let params := rerank_params pyfl repr_float initial_query rerank_docs
                              rerank_weight (vectorize_query rerank_query) in
  let test := test_reranking_query pyfl float_truthy repr_float solr_url
                vectorize_query http_params initial_query rerank_query
                rerank_docs rerank_weight in
  (forall e,
      http_params (solr_url ++ "/select") params = inl e ->
      fst test = inr JNull /\ In (SayRerankError e) (snd test)) /\
  (forall fields,
      http_params (solr_url ++ "/select") params = inr (JObj fields) ->
      fields <> [] ->
      dict_get fields "response" = None ->
      fst test = inl (KeyError "response")).
Proof.
  intros params test. subst test. unfold test_reranking_query.
  fold params. split.
  - intros e He. rewrite He. cbn. split; [reflexivity |].
    do 4 right. now left.
  - intros fields Hfields Hne Hmiss. rewrite Hfields.
    destruct fields as [|f fs]; [now elim Hne |].
    cbn [truthy]. unfold sbind, say, stell, run, show_result, bind, lift.
    cbn [fst snd getitem]. rewrite Hmiss. reflexivity.
Qed.

End Queries.

Lemma well_formed_response_is_shown_and_returned_witness :
  let doc : json Z :=
    JObj [("id", JStr "7"); ("score", JInt 1); ("text", JStr "a routing number")] in
  let response : json Z := JObj [("numFound", JInt 1); ("docs", JArr [doc])] in
  let decoded : json Z := JObj [("response", response)] in
  execute Z (fun z => negb (z =? 0)%Z) "http://localhost:8983/solr/ms-marco"
          (fun _ => inr decoded) (knn_query_data Z str_int 3 [1; 2]%Z)
  = (inr decoded,
     SayFound (JInt 1)
       :: hit_lines 1 [(JStr "7", JInt 1, "a routing number")]).
Proof.
  intros doc response decoded.
  apply (well_formed_response_is_shown_and_returned Z (fun z => negb (z =? 0)%Z)
           "http://localhost:8983/solr/ms-marco" (fun _ => inr decoded)
           (knn_query_data Z str_int 3 [1; 2]%Z) decoded response (JInt 1) [doc]).
  - reflexivity.
  - reflexivity.
  - reflexivity.
  - reflexivity.
  - repeat constructor.
Defined.

Lemma other_exceptions_leave_the_query_witness :
  execute Z (fun z => negb (z =? 0)%Z) "http://localhost:8983/solr/ms-marco"
          (fun _ => inl (ValueError "Expecting value: line 1 column 1"))
          (knn_query_data Z str_int 3 [1; 2]%Z)
  = (inl (ValueError "Expecting value: line 1 column 1"), []).
Proof.
  apply (other_exceptions_leave_the_query Z (fun z => negb (z =? 0)%Z)
           "http://localhost:8983/solr/ms-marco"
           (fun _ => inl (ValueError "Expecting value: line 1 column 1"))).
  - reflexivity.
  - reflexivity.
Defined.

Lemma reranking_absorbs_every_request_error_witness :
  fst (test_reranking_query Z (fun z => negb (z =? 0)%Z) str_int
         "http://localhost:8983/solr/ms-marco" (fun _ => [1; 2]%Z)
         (fun _ _ => inl TypeError) "id:(0 1 2 3 4)" "bank" 4 1)
  = inr JNull.
Proof.
  destruct (reranking_absorbs_every_request_error Z (fun z => negb (z =? 0)%Z)
              str_int "http://localhost:8983/solr/ms-marco" (fun _ => [1; 2]%Z)
              (fun _ _ => inl TypeError) "id:(0 1 2 3 4)" "bank" 4 1)
    as [Habsorbed _].
  apply (Habsorbed TypeError). reflexivity.
Defined.

Section Suite.
Variable pyfl : Type.
Variable float_truthy : pyfl -> bool.
Variable repr_float : pyfl -> string.
Variable solr_url : string.
Variable vectorize_query : string -> list pyfl.
Variable http : request pyfl -> exn + json pyfl.
Variable http_params : string -> list (string * string) -> exn + json pyfl.

Lemma sbind_inr (A C : Type) (m : SM pyfl A) (k : A -> SM pyfl C) (a : A) :
  fst m = inr a ->
  sbind pyfl m k = (fst (k a), (snd m ++ snd (k a))%list).
Proof. intros Hm. unfold sbind. now rewrite Hm. Qed.

Lemma sbind_inl (A C : Type) (m : SM pyfl A) (k : A -> SM pyfl C) (e : exn) :
  fst m = inl e -> sbind pyfl m k = (inl e, snd m).
Proof. intros Hm. unfold sbind. now rewrite Hm. Qed.

Lemma make_request_get (endpoint : string) :
  make_request pyfl solr_url http endpoint None "GET"
  = match http (mkRequest GET (solr_url ++ endpoint) None) with
    | inr decoded => (inr decoded, [])
    | inl e =>
        if is_RequestException e
        then (inr JNull,
              [Say ("Error making request to " ++ (solr_url ++ endpoint)
                    ++ ": " ++ exn_text e)])
        else (inl e, [])
    end.
Proof.
  unfold make_request. cbv zeta.
  change (String.eqb "GET" "POST") with false. cbv iota.
  destruct (http (mkRequest GET (solr_url ++ endpoint) None)) as [e|decoded];
    [| reflexivity].
  destruct (is_RequestException e); reflexivity.
Qed.

(** X18.  The health check answers [False] when the ping request raises a
    request exception or its answer is falsy, whatever the statistics
    request would give, and when the ping answer is a non-empty object but the
    statistics request fails.  It answers [True] when the ping answer is a
    non-empty object and the statistics answer has a "response" with a
    "numFound": the status inside the ping answer is printed, not tested. *)
Theorem health_check_verdict :
  let ping := mkRequest GET (solr_url ++ "/admin/ping") None in
  let stats := mkRequest GET (solr_url ++ "/select?q=*:*&rows=0") None in
  let health := test_solr_health pyfl float_truthy solr_url http in
  (forall msg,
      http ping = inl (RequestException msg) -> fst health = inr false) /\
  (forall decoded,
      http ping = inr decoded ->
      truthy pyfl float_truthy decoded = false ->
      fst health = inr false) /\
  (forall fields msg,
      http ping = inr (JObj fields) -> fields <> [] ->
      http stats = inl (RequestException msg) ->
      fst health = inr false) /\
  (forall fields answer response num_docs,
      http ping = inr (JObj fields) -> fields <> [] ->
      http stats = inr answer ->
      getitem answer "response" = inr response ->
      getitem response "numFound" = inr num_docs ->
      fst health = inr true).
Proof.
  intros ping stats health. subst health. unfold test_solr_health.
  rewrite !make_request_get. fold ping stats.
  split; [| split; [| split]].
  - intros msg Hping. rewrite Hping. reflexivity.
  - intros decoded Hping Hfalsy. rewrite Hping.
    unfold sbind, run, say, stell. cbn [fst snd]. rewrite Hfalsy. reflexivity.
  - intros fields msg Hping Hne Hstats. rewrite Hping, Hstats.
    destruct fields as [|f fs]; [now elim Hne |].
    unfold sbind, run, say, stell, slift, get_method. cbn [fst snd truthy].
    destruct (dict_get (f :: fs) "status"); reflexivity.
  - intros fields answer response num_docs Hping Hne Hstats Hresponse Hnum.
    rewrite Hping, Hstats.
    destruct fields as [|f fs]; [now elim Hne |].
    unfold sbind, run, say, stell, slift, get_method. cbn [fst snd truthy].
    destruct (dict_get (f :: fs) "status"); cbn [fst snd];
      rewrite (getitem_truthy _ _ _ _ _ Hresponse); cbn [fst snd];
      rewrite Hresponse; cbn [fst snd]; rewrite Hnum; reflexivity.
Qed.

(** X19.  When the health check answers [False], [run_all_tests] answers
    [False] at once: after the lines of the health check it prints that the
    check failed, and no query test is run. *)
Theorem failed_health_check_stops_the_suite :
  let health := test_solr_health pyfl float_truthy solr_url http in
  fst health = inr false ->
  run_all_tests pyfl float_truthy repr_float solr_url vectorize_query http
                http_params
  = (inr false,
     (Line (Say "Starting Neural Search Tests...") :: snd health
      ++ [Line (Say "Solr health check failed. Exiting.")])%list).
Proof.
  intros health Hfalse. unfold run_all_tests. fold health.
  unfold sbind at 1. cbn [fst snd say stell].
  rewrite (sbind_inr _ _ health _ false Hfalse). reflexivity.
Qed.

Lemma counted_returns (test : SM pyfl (json pyfl)) (counts : nat * nat) :
  returns test ->
  fst (counted pyfl float_truthy test counts)
  = inr (fst counts + (if passed float_truthy test then 1 else 0),
         S (snd counts)).
Proof.
  intros [result Hresult]. unfold counted, passed.
  rewrite (sbind_inr _ _ test _ result Hresult), Hresult. cbn [fst sret].
  destruct (truthy pyfl float_truthy result);
    [now rewrite Nat.add_1_r | now rewrite Nat.add_0_r].
Qed.

Lemma run_counted_returns (tests : list (SM pyfl (json pyfl))) :
  Forall returns tests ->
  forall counts,
    fst (run_counted pyfl float_truthy tests counts)
    = inr (fst counts + length (filter (passed float_truthy) tests),
           snd counts + length tests).
Proof.
  induction 1 as [|test tests Htest _ IH]; intros counts.
  - cbn. now rewrite !Nat.add_0_r, <- surjective_pairing.
  - cbn [run_counted].
    rewrite (sbind_inr _ _ _ _ _ (counted_returns test counts Htest)).
    cbn [fst]. rewrite IH. cbn [fst snd filter length].
    destruct (passed float_truthy test); cbn [length]; f_equal; f_equal; lia.
Qed.

Lemma run_queries_returns (queries : list string) :
  let tests_of := tests_of pyfl float_truthy repr_float solr_url
                           vectorize_query http http_params in
  Forall returns (flat_map tests_of queries) ->
  forall counts,
    fst (run_queries pyfl float_truthy repr_float solr_url vectorize_query
                     http http_params queries counts)
    = inr (fst counts
           + length (filter (passed float_truthy) (flat_map tests_of queries)),
           snd counts + length (flat_map tests_of queries)).
Proof.
  intros tests_of.
  induction queries as [|query rest IH]; intros Hall counts.
  - cbn. now rewrite !Nat.add_0_r, <- surjective_pairing.
  - cbn [flat_map] in Hall. apply Forall_app in Hall as [Hquery Hrest].
    cbn [run_queries]. unfold sbind at 1 2 3. cbn [fst snd say stell].
    fold tests_of.
    rewrite (sbind_inr _ _ _ _ _ (run_counted_returns _ Hquery counts)).
    cbn [fst]. rewrite (IH Hrest). cbn [fst snd flat_map].
    rewrite filter_app, !length_app. f_equal. f_equal; lia.
Qed.

Lemma all_pass_iff_count (A : Type) (p : A -> bool) (l : list A) :
  (length (filter p l) =? length l)%nat = forallb p l.
Proof.
  induction l as [|x l IH]; [reflexivity |]. cbn [filter forallb].
  destruct (p x); cbn [length andb].
  - exact IH.
  - apply Nat.eqb_neq. pose proof (filter_length_le p l). lia.
Qed.

(** X20.  When the health check answers [True] and each of the twelve query
    tests (four for each of the three queries) returns, [run_all_tests]
    answers [True] exactly when every test returned a truthy result: a
    decoded answer counts as a success whatever it holds, a result list
    that is empty included, and [None] counts as a failure. *)
Theorem suite_verdict_is_all_results_truthy :
  let tests :=
    flat_map (tests_of pyfl float_truthy repr_float solr_url vectorize_query
                       http http_params) test_queries in
  fst (test_solr_health pyfl float_truthy solr_url http) = inr true ->
  Forall returns tests ->
  length tests = 12 /\
  fst (run_all_tests pyfl float_truthy repr_float solr_url vectorize_query http
                     http_params)
  = inr (forallb (passed float_truthy) tests).
Proof.
  intros tests Hhealth Hall. split; [reflexivity |].
  unfold run_all_tests. unfold sbind at 1. cbn [fst snd say stell].
  rewrite (sbind_inr _ _ _ _ true Hhealth). cbn [fst negb].
  pose proof (run_queries_returns test_queries Hall (0, 0)) as Hcounts.
  cbn [fst snd Nat.add] in Hcounts. fold tests in Hcounts.
  rewrite (sbind_inr _ _ _ _ _ Hcounts). cbn [fst snd].
  change (length tests) with 12. cbn [Nat.eqb].
  unfold sbind, say, stell, sret. cbn [fst snd].
  change 12 with (length tests). now rewrite all_pass_iff_count.
Qed.

End Suite.

Lemma health_check_verdict_witness :
  fst (test_solr_health Z (fun z => negb (z =? 0)%Z)
         "http://localhost:8983/solr/ms-marco"
         (fun _ => inl (RequestException "connection refused")))
  = inr false.
Proof.
  destruct (health_check_verdict Z (fun z => negb (z =? 0)%Z)
              "http://localhost:8983/solr/ms-marco"
              (fun _ => inl (RequestException "connection refused")))
    as [Hping _].
  apply (Hping "connection refused"). reflexivity.
Defined.

Lemma failed_health_check_stops_the_suite_witness :
  let http : request Z -> exn + json Z :=
    fun _ => inl (RequestException "connection refused") in
  let health := test_solr_health Z (fun z => negb (z =? 0)%Z)
                  "http://localhost:8983/solr/ms-marco" http in
  run_all_tests Z (fun z => negb (z =? 0)%Z) str_int
                "http://localhost:8983/solr/ms-marco" (fun _ => [1; 2]%Z)
                http (fun _ _ => inl (RequestException "connection refused"))
  = (inr false,
     (Line (Say "Starting Neural Search Tests...") :: snd health
      ++ [Line (Say "Solr health check failed. Exiting.")])%list).
Proof.
  intros http health.
  apply (failed_health_check_stops_the_suite Z (fun z => negb (z =? 0)%Z)
           str_int "http://localhost:8983/solr/ms-marco" (fun _ => [1; 2]%Z)
           http).
  reflexivity.
Defined.

Lemma suite_verdict_is_all_results_truthy_witness :
  let nothing_found : json Z :=
    JObj [("response", JObj [("numFound", JInt 0); ("docs", JArr [])])] in
  fst (run_all_tests Z (fun z => negb (z =? 0)%Z) str_int
         "http://localhost:8983/solr/ms-marco" (fun _ => [1; 2]%Z)
         (fun _ => inr nothing_found) (fun _ _ => inr nothing_found))
  = inr true.
Proof.
  intros nothing_found.
  destruct (suite_verdict_is_all_results_truthy Z (fun z => negb (z =? 0)%Z)
              str_int "http://localhost:8983/solr/ms-marco" (fun _ => [1; 2]%Z)
              (fun _ => inr nothing_found) (fun _ _ => inr nothing_found))
    as [_ Hverdict].
  - reflexivity.
  - repeat constructor; eexists; vm_compute; reflexivity.
  - rewrite Hverdict. vm_compute. reflexivity.
Defined.

End SuiteFacts.


(** ** The command lines *)

Module MainFacts.
Import Py DocumentIndexing VectorGeneration Files Backends.
Import IndexingFacts IndexingMore.

Section Indexing.
Context {B : Type} {client : IndexClient B}.
Variable ping : B -> B * (exn + string).
Variable fs : string -> file.

(** X21.  [main] of the indexing script ends without exit status exactly
    when it was given two file names, both name readable text files, the
    ping did not raise and the indexing run returned; the backend it leaves
    is then the one the run returned.  In every other case the exit status
    is 1. *)
Theorem indexing_main_exit_status (argv : list string) (solr : B) :
  let '(status, solr', _) := IndexingMain.main ping fs argv solr in
  (status = None \/ status = Some 1) /\
  (status = None <->
   exists program documents_filename embedding_filename
          documents_file vectors_file solr1 answer evs,
     argv = [program; documents_filename; embedding_filename] /\
     fs documents_filename = Text documents_file /\
     fs embedding_filename = Text vectors_file /\
     ping solr = (solr1, inr answer) /\
     index_documents solr1 documents_file vectors_file = (Returned solr', evs)).
Proof.
  unfold IndexingMain.main.
  destruct argv as [|program [|d [|v [|extra rest]]]];
    try (split; [now right |]; split; [discriminate |];
         intros (? & ? & ? & ? & ? & ? & ? & ? & Hargv & _); discriminate).
  unfold IndexingMain.test_connection, IndexingMain.index_files,
    IndexingMain.open_text.
  destruct (fs d) as [|ed|documents_file] eqn:Hd; cbn [path_exists negb].
  { split; [now right |]. split; [discriminate |].
    intros (? & ? & ? & ? & ? & ? & ? & ? & Hargv & Hfd & _).
    inversion Hargv; subst. congruence. }
  all: destruct (fs v) as [|ev|vectors_file] eqn:Hv; cbn [path_exists negb].
  all: try (split; [now right |]; split; [discriminate |];
            intros (? & ? & ? & ? & ? & ? & ? & ? & Hargv & Hfd & Hfv & _);
            inversion Hargv; subst; congruence).
  all: destruct (ping solr) as [solr1 [e|answer]] eqn:Hping; cbn [negb].
  all: try (split; [now right |]; split; [discriminate |];
            intros (? & ? & ? & ? & ? & ? & ? & ? & Hargv & Hfd & Hfv & Hp & _);
            inversion Hargv; subst; congruence).
  destruct (index_documents solr1 documents_file vectors_file)
    as [[solr2 | e solr2] evs] eqn:Hrun; cbn [fst snd].
  - split; [now left |]. split; [| reflexivity]. intros _.
    exists program, d, v, documents_file, vectors_file, solr1, answer, evs.
    auto.
  - split; [now right |]. split; [discriminate |].
    intros (? & ? & ? & ? & ? & ? & ? & ? & Hargv & Hfd & Hfv & Hp & Hidx).
    inversion Hargv; subst. rewrite Hd in Hfd. rewrite Hv in Hfv.
    inversion Hfd; inversion Hfv; inversion Hp; subst. congruence.
Qed.

(** X22.  A run in which every record is skipped is not a failure: when
    the ping succeeds and no line of the vectors file is well formed, [main]
    ends without exit status and the backend is the one the ping left
    ([add] was never called). *)
Theorem indexing_main_succeeds_with_everything_skipped
        (program documents_filename embedding_filename : string)
        (documents_file vectors_file : list string)
        (solr solr1 : B) (answer : string) :
  fs documents_filename = Text documents_file ->
  fs embedding_filename = Text vectors_file ->
  ping solr = (solr1, inr answer) ->
  Forall malformed vectors_file ->
  exists evs,
    IndexingMain.main ping fs [program; documents_filename; embedding_filename]
                      solr
    = (None, solr1, evs).
Proof.
  intros Hd Hv Hping Hall.
  destruct (index_loop_all_malformed (combine documents_file vectors_file)
              solr1 0) as (evs & Hrun & _).
  { clear -Hall. revert documents_file.
    induction Hall as [|x xs Hx _ IH]; intros [|y ys]; simpl; constructor; auto. }
  unfold IndexingMain.main, IndexingMain.test_connection,
    IndexingMain.index_files, IndexingMain.open_text.
  rewrite Hd, Hv, Hping. cbn [path_exists negb].
  unfold index_documents. rewrite Hrun. cbn [fst snd]. eexists. reflexivity.
Qed.

End Indexing.

Lemma indexing_main_succeeds_with_everything_skipped_witness :
  let fs := fun name : string =>
              if String.eqb name "docs.tsv" then Text ["a"; "b"]
              else if String.eqb name "vectors.tsv" then Text ["x"; "1,,2"]
              else Absent in
  exists evs,
    IndexingMain.main (client := refusing TypeError)
                      (fun solr => (solr, inr "OK")) fs
                      ["document_indexing.py"; "docs.tsv"; "vectors.tsv"] []
    = (None, [], evs).
Proof.
  intros fs.
  apply (indexing_main_succeeds_with_everything_skipped
           (client := refusing TypeError) (fun solr => (solr, inr "OK")) fs
           "document_indexing.py" "docs.tsv" "vectors.tsv"
           ["a"; "b"] ["x"; "1,,2"] [] [] "OK").
  - reflexivity.
  - reflexivity.
  - reflexivity.
  - repeat constructor; eexists; vm_compute; reflexivity.
Defined.

(** X23.  An exception raised by [add] never leaves [main]: against a
    backend whose [add] always raises, whatever the exception, a run with at
    least one well-formed record ends with exit status 1. *)
Theorem indexing_main_turns_backend_errors_into_exit_1
        (e : exn) (fs : string -> file)
        (program documents_filename embedding_filename : string)
        (documents_file vectors_file : list string) :
  fs documents_filename = Text documents_file ->
  fs embedding_filename = Text vectors_file ->
  entries_from 0 (combine documents_file vectors_file) <> [] ->
  exists calls evs,
    IndexingMain.main (client := refusing e) (fun solr => (solr, inr "OK")) fs
                      [program; documents_filename; embedding_filename] []
    = (Some 1, calls, evs) /\
    calls <> [].
Proof.
  intros Hd Hv Hsome.
  unfold IndexingMain.main, IndexingMain.test_connection,
    IndexingMain.index_files, IndexingMain.open_text.
  rewrite Hd, Hv. cbn [path_exists negb]. unfold index_documents.
  destruct (is_ValueError e) eqn:He.
  - destruct e; try discriminate.
    destruct (index_loop_ValueError_kept about
                (combine documents_file vectors_file) [] [] 0 Hsome)
      as (earlier & evs & Hrun).
    rewrite Hrun. cbn [fst snd]. do 2 eexists. split; [reflexivity |].
    destruct earlier; discriminate.
  - destruct (index_loop_refused e (combine documents_file vectors_file) He
                [] [] 0 Hsome) as (batch & rest & evs & Hrun & _).
    rewrite Hrun. cbn [fst snd]. do 2 eexists. split; [reflexivity |].
    discriminate.
Qed.

Lemma indexing_main_turns_backend_errors_into_exit_1_witness :
  let fs := fun name : string =>
              if String.eqb name "docs.tsv" then Text ["a"; "b"]
              else if String.eqb name "vectors.tsv" then Text ["0.5"; "1,2"]
              else Absent in
  exists calls evs,
    IndexingMain.main (client := refusing (OtherError "SolrError"))
                      (fun solr => (solr, inr "OK")) fs
                      ["document_indexing.py"; "docs.tsv"; "vectors.tsv"] []
    = (Some 1, calls, evs) /\
    calls <> [].
Proof.
  intros fs.
  apply (indexing_main_turns_backend_errors_into_exit_1
           (OtherError "SolrError") fs
           "document_indexing.py" "docs.tsv" "vectors.tsv"
           ["a"; "b"] ["0.5"; "1,2"]).
  - reflexivity.
  - reflexivity.
  - vm_compute. discriminate.
Defined.

Lemma upto_last_slash_none (p : string) :
  count_char "/" p = 0 -> upto_last_slash p = EmptyString.
Proof.
  induction p as [|c r IH]; [reflexivity |]. cbn [count_char upto_last_slash].
  destruct (Ascii.eqb c "/"); [discriminate |].
  intros Hr. now rewrite (IH Hr).
Qed.

Section Generation.
Variable npfloat : Type.
Variable str_np : npfloat -> string.
Variable model_encode : list string -> list (list npfloat).
Variable fs : string -> file.
Variable makedirs : string -> option exn.

(** X24.  [main] of the generation script creates the directory of the
    output file before anything else is done with it.  For an output name
    without a slash that directory is the empty path; when [os.makedirs]
    refuses it, the exception leaves [main]: the model is not loaded and no
    output file is written, although the input file exists. *)
Theorem output_name_without_directory_stops_generation
        (program input_filename output_filename : string) (e : exn) :
  path_exists (fs input_filename) = true ->
  count_char "/" output_filename = 0 ->
  makedirs EmptyString = Some e ->
  GenerationMain.main npfloat str_np model_encode fs makedirs
                      [program; input_filename; output_filename]
  = GenerationMain.mkEnding None (Some e) None [].
Proof.
  intros Hin Hslash Hrefused. unfold GenerationMain.main, dirname.
  rewrite Hin, (upto_last_slash_none _ Hslash). cbn [negb is_empty andb].
  now rewrite Hrefused.
Qed.

End Generation.

Lemma output_name_without_directory_stops_generation_witness :
  let fs := fun name : string =>
              if String.eqb name "docs.tsv" then Text ["a"; "b"] else Absent in
  let makedirs := fun path : string =>
                    if is_empty path
                    then Some (OtherError "FileNotFoundError") else None in
  GenerationMain.main bool (fun b : bool => if b then "1.0" else "0.0")
                      (map (fun _ => [true])) fs makedirs
                      ["vector_generation.py"; "docs.tsv"; "vectors.tsv"]
  = GenerationMain.mkEnding None (Some (OtherError "FileNotFoundError")) None [].
Proof.
  intros fs makedirs.
  apply (output_name_without_directory_stops_generation bool
           (fun b : bool => if b then "1.0" else "0.0")
           (map (fun _ => [true])) fs makedirs).
  - reflexivity.
  - reflexivity.
  - reflexivity.
Defined.

End MainFacts.
